(** * Table analysis: field/table association and table statistics

    A shallow embedding of [table_analysis.py] (class [TableAnalyzer]) and of
    [main] and [display_document_object] of [script.py].

    Python objects are modelled as records, Python dicts as association
    lists in insertion order, the analyzer instance as a record threaded
    through a monad of state, diagnostics and exceptions, and [loguru]
    warnings as the list of diagnostics a call emits.  Floating point values are Rocq's primitive
    binary64 floats.  The collaborators of the [pycognaize] package
    ([IQModel.matches], [NumericParser], [assign_indices_to_tables]) are
    section variables.  The numeric parser is a function to floats where
    the analysis is followed on cells that it parses, and a function that
    returns or raises in [Raising], where an exception of the parser is
    followed through the calls.  The fragments of [numpy], [pandas] and
    [os] the code calls are modelled next to their call sites. *)

From Stdlib Require Import ZArith Floats Uint63.
From stdpp Require Import base list strings option.

Open Scope Z_scope.

(* Decimal literals such as 1.12 stand for the nearest binary64 value. *)
#[local] Set Warnings "-inexact-float".

(** ** Python values *)

(** Scalars met in table cells and field values. *)
Inductive PyVal :=
| PInt (z : Z)
| PFloat (f : float)
| PStr (s : string).

(** Exceptions the analyzed code can raise. *)
Inductive exn := KeyError | IndexError | AttributeError | ValueError | TypeError.

#[global] Instance exn_eq_dec : EqDecision exn.
Proof. solve_decision. Defined.

(** [KeyError] and [IndexError] derive from [LookupError]. *)
Definition is_LookupError (e : exn) : bool :=
  match e with
  | KeyError | IndexError => true
  | _ => false
  end.

Inductive result (A : Type) :=
| Ok (a : A)
| Raise (e : exn).
Arguments Ok {A} a.
Arguments Raise {A} e.

(** ** Dicts in insertion order *)

Module Dict.
Section dict.
Context {K V : Type} `{EqDecision K}.

Definition t := list (K * V).

Definition empty : t := [].

Fixpoint get (k : K) (d : t) : option V :=
  match d with
  | [] => None
  | (k', v) :: rest => if decide (k = k') then Some v else get k rest
  end.

(** [k in d] *)
Definition contains (k : K) (d : t) : bool :=
  match get k d with Some _ => true | None => false end.

(** [d[k] = v]: an existing key keeps its position, a new key goes last. *)
Fixpoint set (k : K) (v : V) (d : t) : t :=
  match d with
  | [] => [(k, v)]
  | (k', v') :: rest =>
      if decide (k = k') then (k', v) :: rest else (k', v') :: set k v rest
  end.

Definition keys (d : t) : list K := d.*1.
Definition values (d : t) : list V := d.*2.
Definition items (d : t) : list (K * V) := d.
End dict.
Arguments t : clear implicits.
End Dict.

(** ** Documents *)

(** The content grid of a table tag ([tag.df.values], row-major). *)
Definition Grid := list (list PyVal).

(** A tag: a page number, a position on that page and, on table tags, the
    content grid.  Only [page_number] and [df] are read by the analyzer; the
    position is what the tag matcher looks at. *)
Record Tag := {
  page_number : Z;
  bbox : Z * Z * Z * Z;
  df : Grid;
}.

(** A field or table instance of a document. *)
Record Field := {
  tags : list Tag;
  value : PyVal;
}.

Record Document := {
  doc_id : string;
  is_xbrl : bool;
  x : Dict.t string (list Field);
}.

(** Composite table key [(page number, ordinal)]. *)
Definition TableIndex : Type := Z * Z.

(** ** Diagnostics *)

(** The three [logger.warning] calls, with the data their messages carry. *)
Inductive Diagnostic :=
| TableHasNoTags (document_id : string)
| FieldNotInAnyTable (py_name : string) (field_value : PyVal) (page : Z)
| NoParsedValue (idx : TableIndex).

(** ** The analyzer object *)

Record TableAnalyzer := {
  table_values : option (Dict.t TableIndex (list float));
  tagged_tables : Dict.t TableIndex Field;
  tables : option (Dict.t TableIndex Field);
  fields_outside_of_tables : Dict.t string (list (Z * PyVal));
  table_name : string;
  threshold : float;
  document : option Document;
}.

(** [TableAnalyzer.__init__] *)
Definition init (table_py_name : string) (threshold : float) : TableAnalyzer :=
  {| table_values := None;
     tagged_tables := Dict.empty;
     tables := None;
     fields_outside_of_tables := Dict.empty;
     table_name := table_py_name;
     threshold := threshold;
     document := None |}.

(** The defaults of the constructor's parameters. *)
Definition default_table_py_name : string := "tables__table".
Definition default_threshold : float := 0.5%float.

Definition with_table_values v (a : TableAnalyzer) : TableAnalyzer :=
  {| table_values := v; tagged_tables := tagged_tables a; tables := tables a;
     fields_outside_of_tables := fields_outside_of_tables a;
     table_name := table_name a; threshold := threshold a;
     document := document a |}.

Definition with_tagged_tables v (a : TableAnalyzer) : TableAnalyzer :=
  {| table_values := table_values a; tagged_tables := v; tables := tables a;
     fields_outside_of_tables := fields_outside_of_tables a;
     table_name := table_name a; threshold := threshold a;
     document := document a |}.

Definition with_tables v (a : TableAnalyzer) : TableAnalyzer :=
  {| table_values := table_values a; tagged_tables := tagged_tables a;
     tables := v;
     fields_outside_of_tables := fields_outside_of_tables a;
     table_name := table_name a; threshold := threshold a;
     document := document a |}.

Definition with_fields_outside_of_tables v (a : TableAnalyzer) : TableAnalyzer :=
  {| table_values := table_values a; tagged_tables := tagged_tables a;
     tables := tables a;
     fields_outside_of_tables := v;
     table_name := table_name a; threshold := threshold a;
     document := document a |}.

Definition with_document v (a : TableAnalyzer) : TableAnalyzer :=
  {| table_values := table_values a; tagged_tables := tagged_tables a;
     tables := tables a;
     fields_outside_of_tables := fields_outside_of_tables a;
     table_name := table_name a; threshold := threshold a;
     document := v |}.

(** ** State, diagnostics and exceptions *)

(** A method call transforms the analyzer object, emits diagnostics and
    either returns or raises; what it did before raising stays done. *)
Definition M (A : Type) : Type :=
  TableAnalyzer → result A * TableAnalyzer * list Diagnostic.

#[global] Instance M_ret : MRet M := λ A v a, (Ok v, a, []).

#[global] Instance M_bind : MBind M := λ A B f m a,
  match m a with
  | (Ok v, a', l) => let '(r, a'', l') := f v a' in (r, a'', l ++ l')
  | (Raise e, a', l) => (Raise e, a', l)
  end.

Definition raise {A} (e : exn) : M A := λ a, (Raise e, a, []).

Definition get_self : M TableAnalyzer := λ a, (Ok a, a, []).

Definition update (f : TableAnalyzer → TableAnalyzer) : M unit :=
  λ a, (Ok (), f a, []).

(** [logger.warning(...)] *)
Definition warning (d : Diagnostic) : M unit := λ a, (Ok (), a, [d]).

Definition lift {A} (r : result A) : M A := λ a, (r, a, []).

(** [o] when it is there, exception [e] otherwise. *)
Definition expect {A} (e : exn) (o : option A) : M A :=
  match o with
  | Some a => mret a
  | None => raise e
  end.

(** [for x in xs: body(x)]; a [continue] is a body that returns early. *)
Fixpoint for_each {X} (xs : list X) (body : X → M unit) : M unit :=
  match xs with
  | [] => mret ()
  | x :: rest => body x ;; for_each rest body
  end.

(** A [for] loop that also updates a local variable of type [S]. *)
Fixpoint for_fold {X S} (xs : list X) (body : S → X → M S) (s : S) : M S :=
  match xs with
  | [] => mret s
  | x :: rest => s' ← body s x; for_fold rest body s'
  end.

(** [o.tags[0]] *)
Definition tags0 (o : Field) : M Tag := expect IndexError (head (tags o)).

(** [enumerate(row)] *)
Fixpoint enumerate_from {A} (i : Z) (l : list A) : list (Z * A) :=
  match l with
  | [] => []
  | a :: rest => (i, a) :: enumerate_from (i + 1) rest
  end.
Definition enumerate {A} (l : list A) : list (Z * A) := enumerate_from 0 l.

(** ** The fragment of numpy used by the analyzer *)

Module np.

Definition of_count (n : Z) : float := PrimFloat.of_uint63 (Uint63.of_Z n).

(** The summation of numpy's [add] loops, for any type with an addition.
    A vector of fewer than 8 values is added from left to right, starting
    from [neg_zero].  A vector of 8 to 128 values is added into eight running
    sums, value [i] into sum [i mod 8], while eight more values are left;
    the eight sums are added in pairs, and the values left over are added
    to the result one by one.  A longer vector is cut in two, the first part
    being half the length rounded down to a multiple of 8, and the sums of
    the parts are added. *)
Section pairwise.
Context {T : Type} (add : T → T → T) (neg_zero : T).

(** The loop that adds eight values at a time into the running sums [r];
    it returns the sums and the values left over. *)
Fixpoint accumulate (r : T * T * T * T * T * T * T * T) (a : list T)
    : (T * T * T * T * T * T * T * T) * list T :=
  match a with
  | a0 :: a1 :: a2 :: a3 :: a4 :: a5 :: a6 :: a7 :: rest =>
      let '(r0, r1, r2, r3, r4, r5, r6, r7) := r in
      accumulate (add r0 a0, add r1 a1, add r2 a2, add r3 a3,
                  add r4 a4, add r5 a5, add r6 a6, add r7 a7) rest
  | _ => (r, a)
  end.

(** The sum of a vector of at most 128 values. *)
Definition block_sum (a : list T) : T :=
  match a with
  | a0 :: a1 :: a2 :: a3 :: a4 :: a5 :: a6 :: a7 :: more =>
      let '((r0, r1, r2, r3, r4, r5, r6, r7), rest) :=
        accumulate (a0, a1, a2, a3, a4, a5, a6, a7) more in
      fold_left add rest
        (add (add (add r0 r1) (add r2 r3)) (add (add r4 r5) (add r6 r7)))
  | _ => fold_left add a neg_zero
  end.

(** The recursive function; [depth] bounds the number of nested cuts, and
    the length of the vector is always enough. *)
Fixpoint pairwise_sum (depth : nat) (a : list T) : T :=
  match depth with
  | O => block_sum a
  | S depth' =>
      if (length a <=? 128)%nat then block_sum a
      else
        let n2 := (length a / 2)%nat in
        let n2 := (n2 - n2 mod 8)%nat in
        add (pairwise_sum depth' (take n2 a)) (pairwise_sum depth' (drop n2 a))
  end.

End pairwise.

(** [np.add.reduce] over a float64 vector: the result starts as [0.0], the
    identity of [add], and the pairwise sum of the vector, which starts from
    [-0.0], is added to it. *)
Definition sum (a : list float) : float :=
  (0 + pairwise_sum PrimFloat.add (PrimFloat.opp 0) (length a) a)%float.

(** [np.average(a)] without weights is [a.mean()]: sum over count. *)
Definition average (a : list float) : float :=
  (sum a / of_count (Z.of_nat (length a)))%float.

(** [np.var(a, ddof)]: mean, deviations, squares, their sum, divided by
    [max(N - ddof, 0)]. *)
Definition var (a : list float) (ddof : Z) : float :=
  let rcount := Z.of_nat (length a) in
  let arrmean := (sum a / of_count rcount)%float in
  let x := map (λ v, v - arrmean)%float a in
  let x := map (λ v, v * v)%float x in
  let ret := sum x in
  let rcount := Z.max (rcount - ddof) 0 in
  (ret / of_count rcount)%float.

(** [np.std(a, ddof)]; [ddof] defaults to [0]. *)
Definition std (a : list float) (ddof : Z) : float := PrimFloat.sqrt (var a ddof).
Definition default_ddof : Z := 0.

Definition two52 : float := 4503599627370496%float.

(** [np.rint]: nearest integer, ties to even. *)
Definition rint (v : float) : float :=
  let a := PrimFloat.abs v in
  if PrimFloat.ltb a two52 then
    let r := ((a + two52) - two52)%float in
    if PrimFloat.ltb v 0%float then PrimFloat.opp r else r
  else v.

Fixpoint pow10 (n : nat) : float :=
  match n with
  | O => 1%float
  | S n' => (10 * pow10 n')%float
  end.

(** [np.round(v, decimals)]: scale by [10**decimals], [rint], scale back. *)
Definition round (v : float) (decimals : Z) : float :=
  if 0 <=? decimals then
    let f := pow10 (Z.to_nat decimals) in (rint (v * f) / f)%float
  else
    let f := pow10 (Z.to_nat (- decimals)) in (rint (v / f) * f)%float.

End np.

(** ** The fragment of pandas used by the analyzer *)

Module pd.

Inductive Label :=
| LInt (i : Z)
| LStr (s : string).

(** A frame: column labels, row labels, the name of the row index and the
    cells, row by row. *)
Record DataFrame := {
  columns : list string;
  index : list Label;
  index_name : option string;
  values : list (list PyVal);
}.

(** [df.empty]: some axis has length 0. *)
Definition empty (df : DataFrame) : bool :=
  match index df, columns df with
  | [], _ | _, [] => true
  | _, _ => false
  end.

(** [df.index.name = name] *)
Definition set_index_name (name : string) (df : DataFrame) : DataFrame :=
  {| columns := columns df; index := index df; index_name := Some name;
     values := values df |}.

Definition nan : float := (0 / 0)%float.

(** Cells of a frame built from labels alone. *)
Definition missing (index : list Label) (columns : list string) : list (list PyVal) :=
  map (λ _, map (λ _, PFloat nan) columns) index.

(** The constructor call [pd.DataFrame] with the starred argument list
    [args] and the keywords [index] and [columns], where every positional
    argument is a list of 2-tuples.  The positional parameters of the
    constructor are [data, index, columns, dtype, copy]:
    - no positional argument: [data] is [None] and the frame has the given
      labels and no data;
    - one positional argument: it is [data], a list of rows, which must have
      as many rows as [index] has labels and as many fields per row as
      [columns] has labels, else [ValueError];
    - two or more: the second one is bound to [index], which is also given
      by keyword, a [TypeError]. *)
Definition DataFrame_init (args : list (list (Z * PyVal)))
    (index : list Label) (columns : list string) : result DataFrame :=
  match args with
  | [] =>
      Ok {| columns := columns; index := index; index_name := None;
            values := missing index columns |}
  | [data] =>
      match data with
      | [] =>
          Ok {| columns := columns; index := index; index_name := None;
                values := missing index columns |}
      | _ :: _ =>
          if bool_decide (length columns = 2%nat)
             && bool_decide (length data = length index)
          then Ok {| columns := columns; index := index; index_name := None;
                     values := map (λ '(page, v), [PInt page; v]) data |}
          else Raise ValueError
      end
  | _ :: _ :: _ => Raise TypeError
  end.

(** [RangeIndex(n)] *)
Definition range_index (n : nat) : list Label :=
  map (λ i, LInt (Z.of_nat i)) (seq 0 n).

(** [pd.DataFrame.from_dict(data, orient='columns')] on a dict of lists: the
    keys become the columns in insertion order, the lists must have one
    length, rows are numbered from 0. *)
Definition from_dict (data : Dict.t string (list PyVal)) : result DataFrame :=
  let n := match data with [] => O | (_, c) :: _ => length c end in
  if forallb (λ c, Nat.eqb (length c) n) (Dict.values data) then
    Ok {| columns := Dict.keys data; index := range_index n; index_name := None;
          values := map (λ i, omap (λ c, c !! i) (Dict.values data)) (seq 0 n) |}
  else Raise ValueError.

End pd.

(** [results[key].append(v)] on a [defaultdict(list)] *)
Definition dd_append (key : string) (v : PyVal)
    (results : Dict.t string (list PyVal)) : Dict.t string (list PyVal) :=
  match Dict.get key results with
  | Some l => Dict.set key (l ++ [v]) results
  | None => Dict.set key [v] results
  end.

(** ** The analyzer's methods *)

Section analyzer.

(** [IQModel.matches(tag_a, tag_b, threshold=...)] *)
Variable matches : Tag → Tag → float → bool.
(** [NumericParser(value).parse_numeric()], on cells that it parses *)
Variable parse_numeric : PyVal → float.
(** [pycognaize.common.table_utils.assign_indices_to_tables] *)
Variable assign_indices_to_tables : list Field → Dict.t TableIndex Field.

(** [self.document], of which an attribute is read next *)
Definition attr_document : M Document :=
  a ← get_self; expect AttributeError (document a).

(** [self.tables.items()] *)
Definition attr_tables_items : M (list (TableIndex * Field)) :=
  a ← get_self; t ← expect AttributeError (tables a); mret (Dict.items t).

(** [self.table_values.items()] *)
Definition attr_table_values_items : M (list (TableIndex * list float)) :=
  a ← get_self; t ← expect AttributeError (table_values a); mret (Dict.items t).

Definition get_table_dict : M unit :=
  doc ← attr_document;
  a ← get_self;
  category ← expect KeyError (Dict.get (table_name a) (x doc));
  tables ← for_fold category (λ tables table,
    match tags table with
    | [] =>
        doc ← attr_document;
        warning (TableHasNoTags (doc_id doc));;
        mret tables
    | _ :: _ => mret (tables ++ [table])
    end) [];
  update (with_tables (Some (assign_indices_to_tables tables))).

(** The [for idx, table in self.tables.items()] loop of
    [check_field_value_in_table]; the result tells whether it was left by
    [break]. *)
Fixpoint scan_tables (field : Field) (items : list (TableIndex * Field)) : M bool :=
  match items with
  | [] => mret false
  | (idx, table) :: rest =>
      ftag ← tags0 field;
      ttag ← tags0 table;
      a ← get_self;
      if matches ftag ttag (threshold a) then
        (if Dict.contains idx (tagged_tables a) then mret ()
         else update (with_tagged_tables (Dict.set idx table (tagged_tables a))));;
        mret true
      else scan_tables field rest
  end.

Definition check_field_value_in_table (py_name : string) (field : Field) : M unit :=
  items ← attr_tables_items;
  broke ← scan_tables field items;
  if broke : bool then mret ()
  else
    a ← get_self;
    (match Dict.get py_name (fields_outside_of_tables a) with
     | Some entries =>
         tag ← tags0 field;
         update (with_fields_outside_of_tables
           (Dict.set py_name (entries ++ [(page_number tag, value field)])
              (fields_outside_of_tables a)))
     | None =>
         tag ← tags0 field;
         update (with_fields_outside_of_tables
           (Dict.set py_name [(page_number tag, value field)]
              (fields_outside_of_tables a)))
     end);;
    tag ← tags0 field;
    warning (FieldNotInAnyTable py_name (value field) (page_number tag)).

Definition check_fields (document : Document) : M pd.DataFrame :=
  update (with_document (Some document));;
  get_table_dict;;
  doc ← attr_document;
  for_each (Dict.keys (x doc)) (λ py_name,
    doc ← attr_document;
    fields ← expect KeyError (Dict.get py_name (x doc));
    for_each fields (λ field,
      match tags field with
      | [] => mret ()
      | _ :: _ => check_field_value_in_table py_name field
      end));;
  a ← get_self;
  let fields_dict := fields_outside_of_tables a in
  df ← lift (pd.DataFrame_init (Dict.values fields_dict)
               (map pd.LStr (Dict.keys fields_dict)) ["page"; "field_value"]);
  mret (pd.set_index_name "python_name" df).

Definition get_table_values (table_df : Grid) (ignored_columns : option (list Z))
    : list float :=
  let ignored_columns :=
    match ignored_columns with None => [] | Some l => l end in
  fold_left (λ table_values row,
    fold_left (λ table_values '(idx, value),
      if bool_decide (idx ∈ ignored_columns) then table_values
      else
        let parsed_value := parse_numeric value in
        if PrimFloat.is_nan parsed_value then table_values
        else table_values ++ [parsed_value])
      (enumerate row) table_values)
    table_df [].

Definition collect_tables_values : M unit :=
  update (with_table_values (Some Dict.empty));;
  a ← get_self;
  for_each (Dict.items (tagged_tables a)) (λ '(idx, table),
    tag ← tags0 table;
    let table_df := df tag in
    let values := get_table_values table_df None in
    match values with
    | [] => warning (NoParsedValue idx)
    | _ :: _ =>
        a ← get_self;
        tv ← expect TypeError (table_values a);
        update (with_table_values (Some (Dict.set idx values tv)))
    end).

Definition calculate_mean (numbers : list float) : float :=
  np.round (np.average numbers) 2.

Definition calculate_std (numbers : list float) : float :=
  np.round (np.std numbers np.default_ddof) 2.

Definition get_table_results : M pd.DataFrame :=
  collect_tables_values;;
  items ← attr_table_values_items;
  let results := fold_left (λ results '(idx, values),
    let mean := calculate_mean values in
    let std := calculate_std values in
    let '(page, table_idx) := idx : TableIndex in
    let results := dd_append "mean" (PFloat mean) results in
    let results := dd_append "std" (PFloat std) results in
    let results := dd_append "page number" (PInt page) results in
    dd_append "table index" (PInt table_idx) results) items Dict.empty in
  lift (pd.from_dict results).

(** ** The boundary: [display_document_object] of script.py *)

(** What the page shows. *)
Inductive Widget :=
| st_title (s : string)
| st_subheader (s : string)
| st_write (s : string)
| st_error (s : string)
| st_dataframe (df : pd.DataFrame)
| st_write_frame (df : pd.DataFrame).

(** The analysis of the [try] block: both reports, from a new analyzer. *)
Definition run_analysis (doc_object : Document) : M (pd.DataFrame * pd.DataFrame) :=
  fields_outside_of_tables ← check_fields doc_object;
  results_ ← get_table_results;
  mret (fields_outside_of_tables, results_).

Definition new_extractor : TableAnalyzer := init "tables__table" 0.5%float.

(** The widgets written by [display_document_object] on a fetched document,
    and the exception that leaves it, if any. *)
Definition display_document_object (doc_object : Document)
    : list Widget * option exn :=
  let page := [st_title "Document Analysis Results"] in
  if negb (is_xbrl doc_object) then
    let page := page ++ [st_subheader "Table Analysis"] in
    match (run_analysis doc_object new_extractor).1.1 with
    | Ok (fields_outside_of_tables, results_) =>
        let page := page ++ [st_write "Mean and Standard Deviation of Tables:"] in
        let page :=
          if pd.empty results_
          then page ++ [st_error "There are no tagged tables in this documents"]
          else page ++ [st_dataframe results_] in
        let page := page ++ [st_write "Fields Outside of Tables:"] in
        let page :=
          if pd.empty fields_outside_of_tables
          then page ++ [st_error "There are no fields tagged outside of tables"]
          else page ++ [st_write_frame fields_outside_of_tables] in
        (page, None)
    | Raise KeyError =>
        (page ++ [st_error "The provided document object has no tables under the key"],
         None)
    | Raise e => (page, Some e)
    end
  else
    (page ++ [st_error "Document is in XBRL format, which is not supported for this analysis."],
     None).

End analyzer.

(** ** The aggregation contract in the specification's words *)

Section contract.

Variable parse : PyVal → float.

(** Row-major; per row: drop the ignored columns, parse each remaining cell,
    drop what parsed to not-a-number; keep the order. *)
Definition extractNumericValues (tableGrid : Grid) (ignoredColumnIndices : list Z)
    : list float :=
  concat (map (λ row,
    filter (λ v, PrimFloat.is_nan v = false)
      (map (λ cell, parse cell.2)
         (filter (λ cell, cell.1 ∉ ignoredColumnIndices) (enumerate row))))
    tableGrid).

End contract.

(** A floating-point summation: the values and zeros that are added, and
    the additions in the order they are made. *)
Inductive summation :=
| term (v : float)
| zero (negative : bool)
| plus (l r : summation).

Fixpoint total (t : summation) : float :=
  match t with
  | term v => v
  | zero negative => if negative then PrimFloat.opp 0 else 0%float
  | plus l r => (total l + total r)%float
  end.

Fixpoint terms (t : summation) : list float :=
  match t with
  | term v => [v]
  | zero _ => []
  | plus l r => terms l ++ terms r
  end.

(** The values added in a list of summations. *)
Definition all_terms (ts : list summation) : list float := ts ≫= terms.

(** [s] is a floating-point sum of [values]: every value is added once, in
    some order and grouping. *)
Definition is_sum (values : list float) (s : float) : Prop :=
  ∃ t, terms t ≡ₚ values ∧ total t = s.

(** Average: a sum of the values over their number. *)
Definition is_average (values : list float) (m : float) : Prop :=
  ∃ s, is_sum values s ∧ m = (s / np.of_count (Z.of_nat (length values)))%float.

Definition squared_deviations (m : float) (values : list float) : list float :=
  map (λ v, (v - m) * (v - m))%float values.

(** Population standard deviation: the root of a sum of the squared
    deviations from an average, over [N]. *)
Definition is_population_standard_deviation (values : list float) (sd : float)
    : Prop :=
  ∃ m q, is_average values m ∧ is_sum (squared_deviations m values) q ∧
         sd = PrimFloat.sqrt (q / np.of_count (Z.of_nat (length values))).

(** Sample standard deviation: the same over [N - 1]. *)
Definition is_sample_standard_deviation (values : list float) (sd : float)
    : Prop :=
  ∃ m q, is_average values m ∧ is_sum (squared_deviations m values) q ∧
         sd = PrimFloat.sqrt (q / np.of_count (Z.of_nat (length values) - 1)).

(** The Table Statistics report over a [table_values] mapping: no column at
    all when the mapping is empty, else the four columns and one row per
    entry. *)
Definition stats_row (mean std : list float → float)
    (entry : TableIndex * list float) : list PyVal :=
  [PFloat (mean entry.2); PFloat (std entry.2); PInt entry.1.1; PInt entry.1.2].

Definition stats_report (mean std : list float → float)
    (entries : list (TableIndex * list float)) : pd.DataFrame :=
  match entries with
  | [] => {| pd.columns := []; pd.index := []; pd.index_name := None;
             pd.values := [] |}
  | _ :: _ =>
      {| pd.columns := ["mean"; "std"; "page number"; "table index"];
         pd.index := pd.range_index (length entries);
         pd.index_name := None;
         pd.values := map (stats_row mean std) entries |}
  end.

(** ** Concrete collaborators

    Stand-ins for the [pycognaize] functions, used to run the analyzer on
    example documents. *)

Definition box_area (b : Z * Z * Z * Z) : Z :=
  let '(x0, y0, x1, y1) := b in
  Z.max 0 (x1 - x0) * Z.max 0 (y1 - y0).

Definition box_intersection (b1 b2 : Z * Z * Z * Z) : Z * Z * Z * Z :=
  let '(x0, y0, x1, y1) := b1 in
  let '(x0', y0', x1', y1') := b2 in
  (Z.max x0 x0', Z.max y0 y0', Z.min x1 x1', Z.min y1 y1').

(** Two tags match when they are on one page and the intersection over
    union of their boxes reaches the threshold. *)
Definition iou_matches (a b : Tag) (threshold : float) : bool :=
  bool_decide (page_number a = page_number b) &&
  (let i := box_area (box_intersection (bbox a) (bbox b)) in
   let u := box_area (bbox a) + box_area (bbox b) - i in
   PrimFloat.leb threshold (np.of_count i / np.of_count u)%float).

Definition digit_of (c : Ascii.ascii) : option Z :=
  let n := Z.of_N (Ascii.N_of_ascii c) in
  if (48 <=? n) && (n <=? 57) then Some (n - 48) else None.

(** The digits of [s] read as a number, with their count. *)
Fixpoint read_digits (s : string) (acc : Z) (count : nat) : option (Z * nat) :=
  match s with
  | EmptyString => Some (acc, count)
  | String c rest =>
      match digit_of c with
      | Some d => read_digits rest (10 * acc + d) (S count)
      | None => None
      end
  end.

(** [s] cut at its first dot. *)
Fixpoint cut_at_dot (s : string) : string * string :=
  match s with
  | EmptyString => (EmptyString, EmptyString)
  | String c rest =>
      if Ascii.eqb c (Ascii.ascii_of_nat 46) then (EmptyString, rest)
      else let '(i, f) := cut_at_dot rest in (String c i, f)
  end.

(** Integers and unsigned decimals parse to their value, anything else to
    not-a-number. *)
Definition decimal_parse_numeric (v : PyVal) : float :=
  match v with
  | PInt z => if z <? 0 then PrimFloat.opp (np.of_count (- z)) else np.of_count z
  | PFloat f => f
  | PStr s =>
      let '(i, f) := cut_at_dot s in
      match read_digits i 0 0, read_digits f 0 0 with
      | Some (iv, S _), Some (fv, k) =>
          (np.of_count iv + np.of_count fv / np.pow10 k)%float
      | _, _ => pd.nan
      end
  end.

(** Modelled from the spec: the Table Indexer, which is outside the analyzed
    files.  Tables are taken in the given order and keyed by the page number
    of their first tag and an ordinal counted per page. *)
Definition assign_by_page (tables : list Field) : Dict.t TableIndex Field :=
  fold_left (λ all_tables table,
    match tags table with
    | [] => all_tables
    | tag :: _ =>
        let page := page_number tag in
        let ordinal :=
          Z.of_nat (length (filter (λ entry, entry.1.1 = page) all_tables)) in
        Dict.set (page, ordinal) table all_tables
    end) tables Dict.empty.

(** ** Example documents *)

Definition tag_at (page : Z) (box : Z * Z * Z * Z) : Tag :=
  {| page_number := page; bbox := box; df := [] |}.

Definition table_tag (page : Z) (box : Z * Z * Z * Z) (grid : Grid) : Tag :=
  {| page_number := page; bbox := box; df := grid |}.

Definition field_at (page : Z) (box : Z * Z * Z * Z) (v : PyVal) : Field :=
  {| tags := [tag_at page box]; value := v |}.

(** The grid of the aggregation example. *)
Definition example_grid : Grid :=
  [[PInt 1; PStr "2.0"; PStr "x"]; [PInt 3; PStr "NaN"; PInt 4]].

(** Two fields of category "revenue" on pages 1 and 3, and no table. *)
Definition revenue_document : Document :=
  {| doc_id := "doc-1"; is_xbrl := false;
     x := [("tables__table", []);
           ("revenue", [field_at 1 (0, 0, 10, 10) (PInt 100);
                        field_at 3 (0, 0, 10, 10) (PInt 200)])] |}.

(** One field of category "revenue" on page 1, and no table. *)
Definition single_revenue_document : Document :=
  {| doc_id := "doc-2"; is_xbrl := false;
     x := [("tables__table", []);
           ("revenue", [field_at 1 (0, 0, 10, 10) (PInt 100)])] |}.

(** An empty table category and nothing else. *)
Definition blank_document : Document :=
  {| doc_id := "doc-3"; is_xbrl := false; x := [("tables__table", [])] |}.

(** No table category. *)
Definition tableless_document : Document :=
  {| doc_id := "doc-4"; is_xbrl := false;
     x := [("revenue", [field_at 1 (0, 0, 10, 10) (PInt 100)])] |}.

(** Two overlapping tables on page 1, the first holding the example grid, an
    untagged table, a table of text only on page 2, and fields inside them. *)
Definition first_table : Field :=
  {| tags := [table_tag 1 (0, 0, 100, 100) example_grid]; value := PStr "" |}.
Definition second_table : Field :=
  {| tags := [table_tag 1 (0, 0, 100, 90) [[PInt 7]]]; value := PStr "" |}.
Definition untagged_table : Field :=
  {| tags := []; value := PStr "" |}.
Definition text_table : Field :=
  {| tags := [table_tag 2 (0, 0, 100, 100) [[PStr "a"; PStr "b"]]];
     value := PStr "" |}.

Definition tables_document : Document :=
  {| doc_id := "doc-5"; is_xbrl := false;
     x := [("tables__table",
            [first_table; untagged_table; second_table; text_table]);
           ("total", [field_at 1 (0, 0, 100, 90) (PInt 10);
                      field_at 1 (0, 0, 100, 100) (PInt 11);
                      field_at 2 (0, 0, 100, 100) (PInt 12)])] |}.

(** ** Notions used by the properties *)

Section notions.

Variable parse : PyVal → float.

(** What [collect_tables_values] leaves in [table_values] after the tagged
    tables [items], starting from [tv]: the parsed values of every table
    that has some, under the table's index. *)
Definition collected (items : list (TableIndex * Field))
    (tv : Dict.t TableIndex (list float)) : Dict.t TableIndex (list float) :=
  fold_left (λ tv item,
    match head (tags item.2) with
    | Some tag =>
        match get_table_values parse (df tag) None with
        | [] => tv
        | values => Dict.set item.1 values tv
        end
    | None => tv
    end) items tv.

(** The diagnostics of [collect_tables_values]: one per table without a
    parsed value. *)
Definition collect_log (items : list (TableIndex * Field)) : list Diagnostic :=
  flat_map (λ item,
    match head (tags item.2) with
    | Some tag =>
        match get_table_values parse (df tag) None with
        | [] => [NoParsedValue item.1]
        | _ => []
        end
    | None => []
    end) items.

(** No cell of the first tag's grid of [table] parses to a number. *)
Definition no_parsed_value (table : Field) : Prop :=
  ∃ tag, head (tags table) = Some tag ∧ get_table_values parse (df tag) None = [].

End notions.

(** No table of [items] matches the tag [ftag] at the threshold of [a]. *)
Definition none_matches (matches : Tag → Tag → float → bool) (ftag : Tag)
    (a : TableAnalyzer) (items : list (TableIndex * Field)) : Prop :=
  Forall (λ item, ∃ ttag, head (tags item.2) = Some ttag ∧
                          matches ftag ttag (threshold a) = false) items.

(** [not o.tags] is false. *)
Definition tagged (o : Field) : bool :=
  match tags o with [] => false | _ :: _ => true end.

(** Every referenced table has a tag. *)
Definition referenced_tagged (a : TableAnalyzer) : Prop :=
  Forall (λ item : TableIndex * Field, tags item.2 ≠ []) (tagged_tables a).

(** The document without the untagged entries of category [name]. *)
Definition without_untagged (name : string) (d : Document) : Document :=
  {| doc_id := doc_id d; is_xbrl := is_xbrl d;
     x := map (λ entry : string * list Field,
                 if decide (entry.1 = name)
                 then (entry.1, filter (λ o, tagged o) entry.2) else entry)
            (x d) |}.

(** A change [g] of the analyzer that matching neither sees nor undoes: it
    keeps the four attributes matching reads and commutes with the two
    assignments matching makes. *)
Record frame (g : TableAnalyzer → TableAnalyzer) : Prop := {
  frame_tables a : tables (g a) = tables a;
  frame_tagged_tables a : tagged_tables (g a) = tagged_tables a;
  frame_fields_outside a :
    fields_outside_of_tables (g a) = fields_outside_of_tables a;
  frame_threshold a : threshold (g a) = threshold a;
  frame_set_tagged_tables v a :
    g (with_tagged_tables v a) = with_tagged_tables v (g a);
  frame_set_fields_outside v a :
    g (with_fields_outside_of_tables v a) =
    with_fields_outside_of_tables v (g a);
}.

(** The call [m] goes through the change [g] of the analyzer. *)
Definition framed (g : TableAnalyzer → TableAnalyzer) {A} (m : M A) : Prop :=
  ∀ a, m (g a) = let '(r, a', l) := m a in (r, g a', l).

(** The loop of [check_fields] over the fields of one category. *)
Definition check_category (matches : Tag → Tag → float → bool)
    (py_name : string) (fields : list Field) : M unit :=
  for_each fields (λ field,
    match tags field with
    | [] => mret ()
    | _ :: _ => check_field_value_in_table matches py_name field
    end).

(** The loops of [check_fields] over the categories of document [d]. *)
Definition check_categories (matches : Tag → Tag → float → bool)
    (d : Document) : M unit :=
  for_each (Dict.keys (x d)) (λ py_name,
    fields ← expect KeyError (Dict.get py_name (x d));
    check_category matches py_name fields).

(** The report [check_fields] builds from [fields_outside_of_tables]. *)
Definition unmatched_report (fields_dict : Dict.t string (list (Z * PyVal)))
    : result pd.DataFrame :=
  match pd.DataFrame_init (Dict.values fields_dict)
          (map pd.LStr (Dict.keys fields_dict)) ["page"; "field_value"] with
  | Ok df => Ok (pd.set_index_name "python_name" df)
  | Raise e => Raise e
  end.

(** The diagnostics of [get_table_dict] on the category [category] of the
    document [d]: one per untagged table. *)
Definition untagged_warnings (d : Document) (category : list Field)
    : list Diagnostic :=
  map (λ _, TableHasNoTags (doc_id d)) (filter (λ o, ¬ tagged o) category).

(** A property of the analyzer that matching keeps: it survives an
    assignment to [fields_outside_of_tables] and the registration of a
    tagged table. *)
Definition stable (I : TableAnalyzer → Prop) : Prop :=
  (∀ v a, I a → I (with_fields_outside_of_tables v a)) ∧
  (∀ idx table a, I a → tags table ≠ [] →
     I (with_tagged_tables (Dict.set idx table (tagged_tables a)) a)).

(** ** Example analyzers *)

(** An index mapping in which the text table of page 2 comes first. *)
Definition scanned_index : Dict.t TableIndex Field :=
  assign_by_page [text_table; first_table; second_table].

(** A new analyzer that has its tables. *)
Definition matching_analyzer : TableAnalyzer :=
  with_tables (Some scanned_index) new_extractor.

(** A field on page 1 that lies on [second_table] exactly, and so inside
    [first_table]. *)
Definition inside_field : Field := field_at 1 (0, 0, 100, 90) (PInt 10).

(** The same analyzer once [first_table] is referenced. *)
Definition referencing_analyzer : TableAnalyzer :=
  with_tagged_tables [((1, 0), first_table)] matching_analyzer.

(** An analyzer that references the example table and the text table. *)
Definition aggregating_analyzer : TableAnalyzer :=
  with_tagged_tables [((1, 0), first_table); ((2, 0), text_table)] new_extractor.

(** An analyzer that references the text table only. *)
Definition text_only_analyzer : TableAnalyzer :=
  with_tagged_tables [((2, 0), text_table)] new_extractor.

(** An analyzer after a whole analysis of the blank document. *)
Definition used_analyzer : TableAnalyzer :=
  (run_analysis iou_matches decimal_parse_numeric assign_by_page
     blank_document new_extractor).1.2.

(** ** Notions used by the further properties *)

(** What [check_field_value_in_table] records for a field that no table
    matches, and the warning it emits. *)
Definition unmatched_entry (field : Field) : option (Z * PyVal) :=
  match head (tags field) with
  | Some tag => Some (page_number tag, value field)
  | None => None
  end.

Definition unmatched_warning (py_name : string) (field : Field)
    : option Diagnostic :=
  match head (tags field) with
  | Some tag => Some (FieldNotInAnyTable py_name (value field) (page_number tag))
  | None => None
  end.

(** Some table of [items] matches the tag [ftag] at threshold [thr]. *)
Definition some_matches (matches : Tag → Tag → float → bool) (ftag : Tag)
    (thr : float) (items : list (TableIndex * Field)) : Prop :=
  Exists (λ item, ∃ ttag, head (tags item.2) = Some ttag ∧
                          matches ftag ttag thr = true) items.

(** The entries under [py_name], none when the key is missing. *)
Definition entries_of (py_name : string)
    (fields_dict : Dict.t string (list (Z * PyVal))) : list (Z * PyVal) :=
  match Dict.get py_name fields_dict with Some l => l | None => [] end.

(** The referenced tables of [a'] are those of [a] followed by tables of
    [index]. *)
Definition grows_within (index : list (TableIndex * Field))
    (a a' : TableAnalyzer) : Prop :=
  ∃ added, tagged_tables a' = tagged_tables a ++ added ∧ added ⊆ index.

(** The [table_values] entry of a referenced table: its parsed values under
    its index, if there are any. *)
Definition table_entry (parse : PyVal → float) (item : TableIndex * Field)
    : option (TableIndex * list float) :=
  match head (tags item.2) with
  | Some tag =>
      match get_table_values parse (df tag) None with
      | [] => None
      | values => Some (item.1, values)
      end
  | None => None
  end.

(** ** The form: [main] of script.py *)

(** What the user typed into the four text inputs, and whether the button
    was pressed. *)
Record Form := {
  API_HOST : string;
  x_auth_token : string;
  recipe_id : string;
  document_id : string;
  button : bool;
}.

(** What the page of [main] holds: the widgets of the analysis and those of
    the form. *)
Inductive Element :=
| shown (w : Widget)
| st_markdown (s : string)
| st_text_input (label : string) (value : string)
| st_button (label : string)
| st_warning (s : string).

(** A string counts as true when it is not empty. *)
Definition truthy (s : string) : bool :=
  match s with
  | EmptyString => false
  | String _ _ => true
  end.

(** The outcome of [main]: the page, [os.environ] and the exception that
    leaves it, if any. *)
Record Outcome := {
  elements : list Element;
  environ : Dict.t string string;
  uncaught : option exn;
}.

(** Whether a string holds the character [c]. *)
Fixpoint holds (c : Ascii.ascii) (s : string) : bool :=
  match s with
  | EmptyString => false
  | String c' rest => Ascii.eqb c' c || holds c rest
  end.

Definition equals_sign : Ascii.ascii := Ascii.ascii_of_nat 61.

(** Whether a string holds a NUL character. *)
Definition has_nul (s : string) : bool := holds Ascii.zero s.

Module os.

(** [os.environ[key] = value], on strings: the pair is handed to [putenv],
    which refuses a NUL character in either, an empty name and a name with
    an equals sign, with [ValueError]; then the mapping is updated. *)
Definition environ_set (key value : string) (env : Dict.t string string)
    : result (Dict.t string string) :=
  if has_nul key || has_nul value || negb (truthy key) || holds equals_sign key
  then Raise ValueError
  else Ok (Dict.set key value env).

End os.

Section form.
Variable matches : Tag → Tag → float → bool.
Variable parse_numeric : PyVal → float.
Variable assign_indices_to_tables : list Field → Dict.t TableIndex Field.
(** [Document.fetch_document(recipe_id, document_id)], which returns the
    document or raises *)
Variable fetch_document : string → string → result Document.

(** [main], on the inputs of the form and the environment of the process;
    [display_document_object] fetches the document and shows the analysis.
    An exception leaves [main] with the page and the environment as they
    are at that point. *)
Definition main (form : Form) (env : Dict.t string string) : Outcome :=
  let page :=
    [shown (st_title "Document Fetcher");
     st_markdown "Enter the Recipe ID and Document ID below:";
     st_text_input "API Host" "https://gulfim-api.cognaize.com";
     st_text_input "X Auth Token" ""] in
  match os.environ_set "API_HOST" (API_HOST form) env with
  | Raise e => {| elements := page; environ := env; uncaught := Some e |}
  | Ok env =>
  match os.environ_set "X_AUTH_TOKEN" (x_auth_token form) env with
  | Raise e => {| elements := page; environ := env; uncaught := Some e |}
  | Ok env =>
  let page :=
    page ++ [st_text_input "Recipe ID" ""; st_text_input "Document ID" "";
             st_button "Get the Document"] in
  let footer :=
    [st_markdown "---";
     st_markdown "Copyright © 2023 Cognaize Engeneering LLC"] in
  if button form then
    if truthy (document_id form) && truthy (recipe_id form)
       && truthy (API_HOST form) && truthy (x_auth_token form)
    then
      match fetch_document (recipe_id form) (document_id form) with
      | Raise e =>
          {| elements := page ++ [shown (st_title "Document Analysis Results")];
             environ := env; uncaught := Some e |}
      | Ok doc_object =>
          let '(widgets, e) :=
            display_document_object matches parse_numeric
              assign_indices_to_tables doc_object in
          match e with
          | None =>
              {| elements := page ++ map shown widgets ++ footer;
                 environ := env; uncaught := None |}
          | Some e =>
              {| elements := page ++ map shown widgets;
                 environ := env; uncaught := Some e |}
          end
      end
    else
      {| elements :=
           page ++ [st_warning
             "Please fill in the required fields to retrieve the document."]
             ++ footer;
         environ := env; uncaught := None |}
  else {| elements := page ++ footer; environ := env; uncaught := None |}
  end
  end.

End form.

(** A form with a NUL character in the token. *)
Definition nul_token_form : Form :=
  {| API_HOST := "https://gulfim-api.cognaize.com";
     x_auth_token := String Ascii.zero "token";
     recipe_id := "recipe"; document_id := "document"; button := true |}.

(** A form with the button pressed and no document id. *)
Definition incomplete_form : Form :=
  {| API_HOST := "https://gulfim-api.cognaize.com"; x_auth_token := "token";
     recipe_id := "recipe"; document_id := ""; button := true |}.

(** ** More example documents *)

(** A field without tags. *)
Definition untagged_field : Field := {| tags := []; value := PStr "n/a" |}.

(** A table, and a category with an untagged field and a field on a page
    without tables. *)
Definition notes_document : Document :=
  {| doc_id := "doc-6"; is_xbrl := false;
     x := [("tables__table", [first_table]);
           ("notes", [untagged_field;
                      field_at 3 (0, 0, 10, 10) (PStr "see above")])] |}.

(** Two fields on page 3, where [scanned_index] has no table. *)
Definition page3_fields : list Field :=
  [field_at 3 (0, 0, 10, 10) (PInt 100); field_at 3 (0, 0, 10, 10) (PInt 200)].

(** The fields of category "total" of [tables_document]. *)
Definition total_fields : list Field :=
  [field_at 1 (0, 0, 100, 90) (PInt 10); field_at 1 (0, 0, 100, 100) (PInt 11);
   field_at 2 (0, 0, 100, 100) (PInt 12)].

(** ** The analyzer with a numeric parser that raises

    [NumericParser(value).parse_numeric()] is called without a guard: an
    exception of the parser leaves [get_table_values], the loop of
    [collect_tables_values] and [get_table_results]. *)

(** A [for] loop that updates a local variable and is left by the first
    exception of its body. *)
Fixpoint fold_result {X S} (body : S → X → result S) (xs : list X) (s : S)
    : result S :=
  match xs with
  | [] => Ok s
  | x :: rest =>
      match body s x with
      | Ok s' => fold_result body rest s'
      | Raise e => Raise e
      end
  end.

Module Raising.
Section raising.

(** [NumericParser(value).parse_numeric()], which returns or raises *)
Variable parse_numeric : PyVal → result float.

Definition get_table_values (table_df : Grid) (ignored_columns : option (list Z))
    : result (list float) :=
  let ignored_columns :=
    match ignored_columns with None => [] | Some l => l end in
  fold_result (λ table_values row,
    fold_result (λ table_values '(idx, value),
      if bool_decide (idx ∈ ignored_columns) then Ok table_values
      else
        match parse_numeric value with
        | Ok parsed_value =>
            if PrimFloat.is_nan parsed_value then Ok table_values
            else Ok (table_values ++ [parsed_value])
        | Raise e => Raise e
        end)
      (enumerate row) table_values)
    table_df [].

Definition collect_tables_values : M unit :=
  update (with_table_values (Some Dict.empty));;
  a ← get_self;
  for_each (Dict.items (tagged_tables a)) (λ '(idx, table),
    tag ← tags0 table;
    let table_df := df tag in
    values ← lift (get_table_values table_df None);
    match values with
    | [] => warning (NoParsedValue idx)
    | _ :: _ =>
        a ← get_self;
        tv ← expect TypeError (table_values a);
        update (with_table_values (Some (Dict.set idx values tv)))
    end).

Definition get_table_results : M pd.DataFrame :=
  collect_tables_values;;
  items ← attr_table_values_items;
  let results := fold_left (λ results '(idx, values),
    let mean := calculate_mean values in
    let std := calculate_std values in
    let '(page, table_idx) := idx : TableIndex in
    let results := dd_append "mean" (PFloat mean) results in
    let results := dd_append "std" (PFloat std) results in
    let results := dd_append "page number" (PInt page) results in
    dd_append "table index" (PInt table_idx) results) items Dict.empty in
  lift (pd.from_dict results).

(** The parsed values of [cells], or the exception of the first cell on
    which the parser raises. *)
Fixpoint parse_cells (cells : list PyVal) : result (list float) :=
  match cells with
  | [] => Ok []
  | cell :: rest =>
      match parse_numeric cell with
      | Ok v =>
          match parse_cells rest with
          | Ok vs => Ok (v :: vs)
          | Raise e => Raise e
          end
      | Raise e => Raise e
      end
  end.

End raising.
End Raising.

(** The cells that [get_table_values] reads: those of the grid, row by row,
    whose column is not ignored, with their column index. *)
Definition cells_read (tableGrid : Grid) (ignoredColumnIndices : list Z)
    : list (Z * PyVal) :=
  filter (λ cell, cell.1 ∉ ignoredColumnIndices) (tableGrid ≫= enumerate).

(** The aggregation contract with a parser that raises: the cells read are
    parsed in order, and what parsed to not-a-number is dropped. *)
Definition extractParsedValues (parse : PyVal → result float)
    (tableGrid : Grid) (ignoredColumnIndices : list Z) : result (list float) :=
  match Raising.parse_cells parse
          (map snd (cells_read tableGrid ignoredColumnIndices)) with
  | Ok vs => Ok (filter (λ v, PrimFloat.is_nan v = false) vs)
  | Raise e => Raise e
  end.

(** The cells that [collect_tables_values] reads in a referenced table:
    those of the grid of its first tag. *)
Definition cells_of (table : Field) : list (Z * PyVal) :=
  match head (tags table) with
  | Some tag => cells_read (df tag) []
  | None => []
  end.

(** On every cell read in the tables [items], the parser [parse] returns
    what [f] returns. *)
Definition parses_as (parse : PyVal → result float) (f : PyVal → float)
    (items : list (TableIndex * Field)) : Prop :=
  Forall (λ item : TableIndex * Field,
    Forall (λ cell, parse cell.2 = Ok (f cell.2)) (cells_of item.2)) items.

(** On some cell read in the tables [items], the parser raises [e]. *)
Definition raises_in (parse : PyVal → result float) (e : exn)
    (items : list (TableIndex * Field)) : Prop :=
  Exists (λ item : TableIndex * Field,
    Exists (λ cell, parse cell.2 = Raise e) (cells_of item.2)) items.

(** A stand-in for [NumericParser] of [pycognaize], which takes a string: a
    cell that is not a string is refused with [TypeError]; a string is read
    as an unsigned decimal, or is not a number. *)
Definition numeric_parser (v : PyVal) : result float :=
  match v with
  | PStr _ => Ok (decimal_parse_numeric v)
  | PInt _ | PFloat _ => Raise TypeError
  end.

(** The grid of the aggregation example with every cell a string, as in the
    content grid of a table tag. *)
Definition string_grid : Grid :=
  [[PStr "1"; PStr "2.0"; PStr "x"]; [PStr "3"; PStr "NaN"; PStr "4"]].

(** The string cells of the aggregation example parse as the example
    expects. *)
Definition parses_string_cells (parse : PyVal → result float) : Prop :=
  parse (PStr "1") = Ok 1%float ∧ parse (PStr "2.0") = Ok 2%float ∧
  (∃ v, parse (PStr "x") = Ok v ∧ PrimFloat.is_nan v = true) ∧
  parse (PStr "3") = Ok 3%float ∧
  (∃ v, parse (PStr "NaN") = Ok v ∧ PrimFloat.is_nan v = true) ∧
  parse (PStr "4") = Ok 4%float.

(** The tables of [tables_document] with string cells, and its fields. *)
Definition first_string_table : Field :=
  {| tags := [table_tag 1 (0, 0, 100, 100) string_grid]; value := PStr "" |}.
Definition second_string_table : Field :=
  {| tags := [table_tag 1 (0, 0, 100, 90) [[PStr "7"]]]; value := PStr "" |}.

Definition string_tables_document : Document :=
  {| doc_id := "doc-7"; is_xbrl := false;
     x := [("tables__table",
            [first_string_table; untagged_table; second_string_table;
             text_table]);
           ("total", total_fields)] |}.

(** * Properties *)

(** ** Dicts *)

Section dict_facts.
Context {K V : Type} `{EqDecision K}.
Implicit Types (d : Dict.t K V) (k : K) (v : V).

Lemma dict_get_set_ne d k k' v :
  k' ≠ k → Dict.get k' (Dict.set k v d) = Dict.get k' d.
Proof.
  intros Hne. induction d as [|[k0 v0] d IH]; cbn.
  - by rewrite decide_False.
  - destruct (decide (k = k0)) as [->|Hne0]; cbn.
    + by rewrite !decide_False.
    + destruct (decide (k' = k0)); done.
Qed.

Lemma dict_get_None d k : Dict.get k d = None ↔ k ∉ Dict.keys d.
Proof.
  induction d as [|[k' v'] d IH]; cbn.
  - split; [intros _; apply not_elem_of_nil | done].
  - destruct (decide (k = k')) as [->|Hne].
    + split; [done | intros Hn; exfalso; apply Hn; left].
    + rewrite IH. rewrite not_elem_of_cons. tauto.
Qed.

Lemma dict_contains_true d k : Dict.contains k d = true ↔ k ∈ Dict.keys d.
Proof.
  unfold Dict.contains. destruct (Dict.get k d) eqn:E.
  - split; [intros _ | done].
    destruct (decide (k ∈ Dict.keys d)) as [|Hn]; [done|].
    apply dict_get_None in Hn. congruence.
  - split; [done|]. intros Hin. apply dict_get_None in E. done.
Qed.

Lemma dict_set_fresh d k v :
  k ∉ Dict.keys d → Dict.set k v d = d ++ [(k, v)].
Proof.
  induction d as [|[k' v'] d IH]; cbn; [done|].
  rewrite not_elem_of_cons. intros [Hne Hn].
  rewrite decide_False by done. by rewrite IH.
Qed.

End dict_facts.

(** ** Extraction of the numeric values *)

Section extraction.
Variable parse_numeric : PyVal → float.

Lemma row_values (ignored : list Z) (row : list PyVal) (i : Z) (acc : list float) :
  fold_left (λ table_values '(idx, value),
      if bool_decide (idx ∈ ignored) then table_values
      else
        let parsed_value := parse_numeric value in
        if PrimFloat.is_nan parsed_value then table_values
        else table_values ++ [parsed_value])
    (enumerate_from i row) acc =
  acc ++ filter (λ v, PrimFloat.is_nan v = false)
           (map (λ cell, parse_numeric cell.2)
              (filter (λ cell, cell.1 ∉ ignored) (enumerate_from i row))).
Proof.
  revert i acc. induction row as [|c row IH]; intros i acc; cbn.
  - by rewrite app_nil_r.
  - rewrite IH. case_bool_decide as Hin.
    + by rewrite decide_False by (intros Hn; done).
    + rewrite decide_True by done. cbn.
      destruct (PrimFloat.is_nan (parse_numeric c)) eqn:E.
      * by rewrite decide_False by done.
      * rewrite decide_True by done. by rewrite <- app_assoc.
Qed.

Lemma grid_values (ignored : list Z) (grid : Grid) (acc : list float) :
  fold_left (λ table_values row,
      fold_left (λ table_values '(idx, value),
          if bool_decide (idx ∈ ignored) then table_values
          else
            let parsed_value := parse_numeric value in
            if PrimFloat.is_nan parsed_value then table_values
            else table_values ++ [parsed_value])
        (enumerate row) table_values)
    grid acc =
  acc ++ extractNumericValues parse_numeric grid ignored.
Proof.
  revert acc. induction grid as [|row grid IH]; intros acc; cbn.
  - by rewrite app_nil_r.
  - rewrite IH. unfold enumerate. rewrite row_values.
    by rewrite <- app_assoc.
Qed.

Lemma get_table_values_total (grid : Grid) (ignored_columns : option (list Z)) :
  get_table_values parse_numeric grid ignored_columns =
  extractNumericValues parse_numeric grid (default [] ignored_columns).
Proof.
  unfold get_table_values. rewrite grid_values.
  by destruct ignored_columns.
Qed.

End extraction.

(** ** Extraction with a parser that raises *)

Section raising_extraction.
Variable parse : PyVal → result float.

Lemma parse_cells_app (xs ys : list PyVal) :
  Raising.parse_cells parse (xs ++ ys) =
  match Raising.parse_cells parse xs with
  | Ok vs =>
      match Raising.parse_cells parse ys with
      | Ok ws => Ok (vs ++ ws)
      | Raise e => Raise e
      end
  | Raise e => Raise e
  end.
Proof.
  induction xs as [|x xs IH]; cbn.
  - by destruct (Raising.parse_cells parse ys).
  - destruct (parse x) as [v|e]; [|done]. rewrite IH.
    destruct (Raising.parse_cells parse xs) as [vs|e]; [|done].
    by destruct (Raising.parse_cells parse ys).
Qed.

Lemma parse_cells_returns (f : PyVal → float) (cells : list PyVal) :
  Forall (λ cell, parse cell = Ok (f cell)) cells →
  Raising.parse_cells parse cells = Ok (map f cells).
Proof.
  induction 1 as [|cell cells Hcell _ IH]; cbn; [done|].
  by rewrite Hcell, IH.
Qed.

Lemma parse_cells_raises (e : exn) (cells : list PyVal) :
  Raising.parse_cells parse cells = Raise e →
  Exists (λ cell, parse cell = Raise e) cells.
Proof.
  induction cells as [|cell cells IH]; cbn; [done|].
  destruct (parse cell) as [v|e'] eqn:Hcell.
  - destruct (Raising.parse_cells parse cells) as [vs|e'']; [done|].
    intros [= ->]. apply Exists_cons_tl, IH. done.
  - intros [= ->]. by apply Exists_cons_hd.
Qed.

Lemma raising_row_values (ignored : list Z) (row : list PyVal) (i : Z)
    (acc : list float) :
  fold_result (λ table_values '(idx, value),
      if bool_decide (idx ∈ ignored) then Ok table_values
      else
        match parse value with
        | Ok parsed_value =>
            if PrimFloat.is_nan parsed_value then Ok table_values
            else Ok (table_values ++ [parsed_value])
        | Raise e => Raise e
        end)
    (enumerate_from i row) acc =
  match Raising.parse_cells parse
          (map snd (filter (λ cell, cell.1 ∉ ignored) (enumerate_from i row))) with
  | Ok vs => Ok (acc ++ filter (λ v, PrimFloat.is_nan v = false) vs)
  | Raise e => Raise e
  end.
Proof.
  revert i acc. induction row as [|c row IH]; intros i acc; cbn.
  - by rewrite app_nil_r.
  - case_bool_decide as Hin.
    + rewrite decide_False by (intros Hn; done). apply IH.
    + rewrite decide_True by done. cbn.
      destruct (parse c) as [v|e]; [|done].
      destruct (PrimFloat.is_nan v) eqn:E; rewrite IH;
        destruct (Raising.parse_cells parse _) as [vs|e]; try done.
      * by rewrite filter_cons_False by (by rewrite E).
      * rewrite filter_cons_True by done. by rewrite <- app_assoc.
Qed.

Lemma raising_grid_values (ignored : list Z) (grid : Grid) (acc : list float) :
  fold_result (λ table_values row,
      fold_result (λ table_values '(idx, value),
          if bool_decide (idx ∈ ignored) then Ok table_values
          else
            match parse value with
            | Ok parsed_value =>
                if PrimFloat.is_nan parsed_value then Ok table_values
                else Ok (table_values ++ [parsed_value])
            | Raise e => Raise e
            end)
        (enumerate row) table_values)
    grid acc =
  match Raising.parse_cells parse (map snd (cells_read grid ignored)) with
  | Ok vs => Ok (acc ++ filter (λ v, PrimFloat.is_nan v = false) vs)
  | Raise e => Raise e
  end.
Proof.
  revert acc. induction grid as [|row grid IH]; intros acc; cbn.
  - by rewrite app_nil_r.
  - unfold cells_read. cbn. rewrite list.filter_app, map_app, parse_cells_app.
    unfold enumerate at 1. rewrite raising_row_values.
    fold (enumerate row).
    destruct (Raising.parse_cells parse
                (map snd (filter (λ cell, cell.1 ∉ ignored) (enumerate row))))
      as [vs|e]; [|done].
    rewrite IH. unfold cells_read.
    destruct (Raising.parse_cells parse _) as [ws|e]; [|done].
    by rewrite list.filter_app, app_assoc.
Qed.

Lemma raising_values_of_grid (grid : Grid)
    (ignored_columns : option (list Z)) :
  Raising.get_table_values parse grid ignored_columns =
  extractParsedValues parse grid (default [] ignored_columns).
Proof.
  unfold Raising.get_table_values, extractParsedValues.
  rewrite raising_grid_values. by destruct ignored_columns.
Qed.

(** The values of the cells read are those of the contract, row by row. *)
Lemma cells_read_values (f : PyVal → float) (grid : Grid) (ignored : list Z) :
  filter (λ v, PrimFloat.is_nan v = false)
    (map f (map snd (cells_read grid ignored))) =
  extractNumericValues f grid ignored.
Proof.
  unfold cells_read, extractNumericValues.
  induction grid as [|row grid IH]; cbn; [done|].
  rewrite list.filter_app, !map_app, list.filter_app, IH. f_equal.
  by rewrite map_map.
Qed.

Lemma raising_get_table_values_returns (f : PyVal → float) (grid : Grid)
    (ignored_columns : option (list Z)) :
  Forall (λ cell, parse cell.2 = Ok (f cell.2))
    (cells_read grid (default [] ignored_columns)) →
  Raising.get_table_values parse grid ignored_columns =
  Ok (get_table_values f grid ignored_columns).
Proof.
  intros Hcells.
  rewrite raising_values_of_grid, get_table_values_total.
  unfold extractParsedValues.
  rewrite (parse_cells_returns f) by (by apply Forall_fmap).
  by rewrite cells_read_values.
Qed.

Lemma raising_get_table_values_raises (e : exn) (grid : Grid)
    (ignored_columns : option (list Z)) :
  Raising.get_table_values parse grid ignored_columns = Raise e →
  Exists (λ cell, parse cell.2 = Raise e)
    (cells_read grid (default [] ignored_columns)).
Proof.
  rewrite raising_values_of_grid. unfold extractParsedValues.
  destruct (Raising.parse_cells parse _) as [vs|e'] eqn:Hcells; [done|].
  intros [= ->]. apply parse_cells_raises in Hcells.
  by apply Exists_fmap in Hcells.
Qed.

(** C4, amended: [get_table_values] visits the cells row by row, leaves out
    the cells of ignored columns and parses the others in the order met;
    without the optional argument no column is ignored.  When the parser
    returns on every cell read, the result is the list of the parsed values
    that are numbers, in the order met; when it raises on one, the first
    such exception leaves [get_table_values].  With a parser that reads the
    cells of [["1", "2.0", "x"], ["3", "NaN", "4"]] as 1, 2, nan, 3, nan, 4
    the values of that grid are [1, 2, 3, 4]. *)
Theorem get_table_values_extracts :
  (∀ (grid : Grid) (ignored : list Z),
     Raising.get_table_values parse grid (Some ignored) =
     extractParsedValues parse grid ignored) ∧
  (∀ grid : Grid,
     Raising.get_table_values parse grid None =
     extractParsedValues parse grid []) ∧
  (∀ (f : PyVal → float) (grid : Grid) (ignored : list Z),
     Forall (λ cell, parse cell.2 = Ok (f cell.2)) (cells_read grid ignored) →
     Raising.get_table_values parse grid (Some ignored) =
     Ok (extractNumericValues f grid ignored)) ∧
  (∀ (grid : Grid) (ignored : list Z) (e : exn),
     Raising.get_table_values parse grid (Some ignored) = Raise e →
     Exists (λ cell, parse cell.2 = Raise e) (cells_read grid ignored)) ∧
  (parses_string_cells parse →
   Raising.get_table_values parse string_grid None =
   Ok [1%float; 2%float; 3%float; 4%float]).
Proof.
  split_and!.
  - intros grid ignored. apply raising_values_of_grid.
  - intros grid. apply raising_values_of_grid.
  - intros f grid ignored Hcells.
    rewrite (raising_get_table_values_returns f) by done.
    by rewrite get_table_values_total.
  - intros grid ignored e. apply raising_get_table_values_raises.
  - intros (H1 & H2 & (x & Hx & Hxn) & H3 & (n & Hn & Hnn) & H4).
    unfold Raising.get_table_values, string_grid, enumerate. cbn.
    rewrite H1, H2, Hx, Hxn. cbn. rewrite H3, Hn, Hnn, H4. reflexivity.
Qed.

End raising_extraction.

Lemma get_table_values_extracts_witness :
  parses_string_cells numeric_parser ∧
  Raising.get_table_values numeric_parser string_grid None =
  Ok [1%float; 2%float; 3%float; 4%float].
Proof.
  assert (H : parses_string_cells numeric_parser).
  { unfold parses_string_cells. split_and!;
      try (vm_compute; reflexivity);
      eexists; (split; [reflexivity|vm_compute; reflexivity]). }
  split; [exact H|].
  exact (proj2 (proj2 (proj2 (proj2
           (get_table_values_extracts numeric_parser)))) H).
Defined.

(** C4, as stated, fails: on the grid of the example, whose first cell is
    the integer 1, the parser raises and so does [get_table_values]. *)
Lemma get_table_values_raises_on_example_grid :
  Raising.get_table_values numeric_parser example_grid None = Raise TypeError ∧
  Raising.get_table_values numeric_parser example_grid None ≠
    Ok [1%float; 2%float; 3%float; 4%float].
Proof. split; [reflexivity|discriminate]. Qed.

(** ** Calls *)

Lemma bind_run {A B} (m : M A) (f : A → M B) (a : TableAnalyzer) :
  (m ≫= f) a =
  match m a with
  | (Ok v, a', l) => let '(r, a'', l') := f v a' in (r, a'', l ++ l')
  | (Raise e, a', l) => (Raise e, a', l)
  end.
Proof. reflexivity. Qed.

Lemma for_each_cons {X} (x : X) (xs : list X) (body : X → M unit) :
  for_each (x :: xs) body = (body x ;; for_each xs body).
Proof. reflexivity. Qed.

(** In a proof by induction on the list a loop runs over, turn the loop over
    the tail into a variable, so that evaluating the first round leaves it
    alone. *)
Ltac hide_loop items IH loop :=
  revert IH;
  match goal with
  | |- context [for_each items ?b] => generalize (for_each items b)
  end;
  intros loop IH.

(** Rewrite the loop of the goal with an equation [lem] for it, whatever
    running the code around the loop did to the way it is written. *)
Ltac rewrite_loop lem :=
  let H := fresh "Hloop" in
  pose proof lem as H;
  match type of H with
  | ?lhs = _ =>
      match goal with
      | |- context [for_each ?xs ?b ?s] =>
          change (for_each xs b s) with lhs; rewrite H; clear H
      end
  end.

(** Run the straight-line part of a call on the state at hand. *)
Ltac run :=
  unfold expect, get_self, update, warning, raise, lift, Dict.items,
    mbind, M_bind, mret, M_ret;
  simpl.

(** ** The summation of numpy *)

Section summation_facts.
Context {T : Type} (add : T → T → T) (neg_zero : T).

(** Induction on a list, eight elements at a time. *)
Lemma by_eights (P : list T → Prop) :
  (∀ a, (length a < 8)%nat → P a) →
  (∀ a0 a1 a2 a3 a4 a5 a6 a7 rest, P rest →
     P (a0 :: a1 :: a2 :: a3 :: a4 :: a5 :: a6 :: a7 :: rest)) →
  ∀ a, P a.
Proof.
  intros Hshort Hstep a.
  assert (H : ∀ n a, (length a ≤ n)%nat → P a); [|by apply (H (length a))].
  clear a. induction n as [|n IH]; intros a Hn.
  - apply Hshort. lia.
  - destruct a as [|a0 [|a1 [|a2 [|a3 [|a4 [|a5 [|a6 [|a7 rest]]]]]]]];
      try (apply Hshort; cbn; lia).
    apply Hstep, IH. cbn in Hn. lia.
Qed.

(** With enough depth the result does not depend on the depth. *)
Lemma pairwise_sum_depth (d d' : nat) (a : list T) :
  (length a ≤ d)%nat → (length a ≤ d')%nat →
  np.pairwise_sum add neg_zero d a = np.pairwise_sum add neg_zero d' a.
Proof.
  revert d' a. induction d as [|d IH]; intros d' a Hd Hd'.
  - destruct a; [|cbn in Hd; lia]. by destruct d'.
  - cbn [np.pairwise_sum]. destruct (length a <=? 128)%nat eqn:Hlen.
    + destruct d' as [|d']; [done|]. cbn [np.pairwise_sum]. by rewrite Hlen.
    + apply Nat.leb_gt in Hlen.
      destruct d' as [|d']; [lia|]. cbn [np.pairwise_sum].
      apply Nat.leb_gt in Hlen as Hlen'. rewrite Hlen'. cbv zeta.
      set (n2 := (length a / 2 - (length a / 2) mod 8)%nat).
      assert (H2 : (1 ≤ n2 < length a)%nat).
      { subst n2.
        pose proof (Nat.mod_upper_bound (length a / 2) 8 ltac:(done)).
        pose proof (Nat.div_lt (length a) 2 ltac:(lia) ltac:(lia)).
        assert (64 ≤ length a / 2)%nat
          by (apply (Nat.div_le_lower_bound); lia).
        lia. }
      f_equal; apply IH; rewrite ?length_take, ?length_drop; lia.
Qed.

End summation_facts.

Section summation_maps.
Context {T T' : Type} (add : T → T → T) (add' : T' → T' → T') (h : T → T').
Hypothesis h_add : ∀ x y, h (add x y) = add' (h x) (h y).

Lemma fold_left_map (a : list T) (s : T) :
  h (fold_left add a s) = fold_left add' (map h a) (h s).
Proof. revert s. induction a as [|x a IH]; intros s; cbn; [done|]. by rewrite IH, h_add. Qed.

Lemma accumulate_map (a : list T) :
  ∀ r0 r1 r2 r3 r4 r5 r6 r7,
  np.accumulate add' (h r0, h r1, h r2, h r3, h r4, h r5, h r6, h r7) (map h a) =
  let '((s0, s1, s2, s3, s4, s5, s6, s7), rest) :=
    np.accumulate add (r0, r1, r2, r3, r4, r5, r6, r7) a in
  ((h s0, h s1, h s2, h s3, h s4, h s5, h s6, h s7), map h rest).
Proof.
  induction a as [a Hshort|a0 a1 a2 a3 a4 a5 a6 a7 rest IH] using by_eights;
    intros r0 r1 r2 r3 r4 r5 r6 r7.
  - destruct a as [|a0 [|a1 [|a2 [|a3 [|a4 [|a5 [|a6 [|a7 rest]]]]]]]];
      try (cbn [np.accumulate map]; reflexivity). cbn in Hshort. lia.
  - cbn [np.accumulate map]. rewrite <- !h_add. apply IH.
Qed.

Lemma block_sum_map (nz : T) (a : list T) :
  h (np.block_sum add nz a) = np.block_sum add' (h nz) (map h a).
Proof.
  destruct a as [|a0 [|a1 [|a2 [|a3 [|a4 [|a5 [|a6 [|a7 more]]]]]]]];
    try (unfold np.block_sum; cbn [map]; apply fold_left_map).
  unfold np.block_sum. cbn [map]. rewrite accumulate_map.
  destruct (np.accumulate add (a0, a1, a2, a3, a4, a5, a6, a7) more)
    as [[[[[[[[s0 s1] s2] s3] s4] s5] s6] s7] rest].
  by rewrite fold_left_map, !h_add.
Qed.

Lemma pairwise_sum_map (nz : T) (d : nat) (a : list T) :
  h (np.pairwise_sum add nz d a) = np.pairwise_sum add' (h nz) d (map h a).
Proof.
  revert a. induction d as [|d IH]; intros a; cbn [np.pairwise_sum].
  - apply block_sum_map.
  - rewrite length_map. destruct (length a <=? 128)%nat.
    + apply block_sum_map.
    + cbv zeta. by rewrite h_add, !IH, <- firstn_map, <- skipn_map.
Qed.

End summation_maps.

Lemma fold_left_terms (ts : list summation) (t : summation) :
  terms (fold_left plus ts t) = terms t ++ all_terms ts.
Proof.
  revert t. induction ts as [|x ts IH]; intros t; cbn.
  - by rewrite app_nil_r.
  - rewrite IH. cbn. by rewrite <- app_assoc.
Qed.

Lemma accumulate_terms (ts : list summation) :
  ∀ r0 r1 r2 r3 r4 r5 r6 r7,
  let '((s0, s1, s2, s3, s4, s5, s6, s7), rest) :=
    np.accumulate plus (r0, r1, r2, r3, r4, r5, r6, r7) ts in
  terms s0 ++ terms s1 ++ terms s2 ++ terms s3 ++ terms s4 ++ terms s5 ++
  terms s6 ++ terms s7 ++ all_terms rest ≡ₚ
  terms r0 ++ terms r1 ++ terms r2 ++ terms r3 ++ terms r4 ++ terms r5 ++
  terms r6 ++ terms r7 ++ all_terms ts.
Proof.
  induction ts as [a Hshort|a0 a1 a2 a3 a4 a5 a6 a7 rest IH] using by_eights;
    intros r0 r1 r2 r3 r4 r5 r6 r7.
  - destruct a as [|a0 [|a1 [|a2 [|a3 [|a4 [|a5 [|a6 [|a7 rest]]]]]]]];
      try (cbn [np.accumulate]; reflexivity). cbn in Hshort. lia.
  - cbn [np.accumulate].
    specialize (IH (plus r0 a0) (plus r1 a1) (plus r2 a2) (plus r3 a3)
                   (plus r4 a4) (plus r5 a5) (plus r6 a6) (plus r7 a7)).
    destruct (np.accumulate plus _ rest)
      as [[[[[[[[s0 s1] s2] s3] s4] s5] s6] s7] rest'].
    rewrite IH. unfold all_terms. cbn [terms mbind list_bind].
    fold (all_terms rest). solve_Permutation.
Qed.

Lemma block_sum_terms (ts : list summation) :
  terms (np.block_sum plus (zero true) ts) ≡ₚ all_terms ts.
Proof.
  destruct ts as [|a0 [|a1 [|a2 [|a3 [|a4 [|a5 [|a6 [|a7 more]]]]]]]];
    try (unfold np.block_sum; by rewrite fold_left_terms).
  unfold np.block_sum.
  pose proof (accumulate_terms more a0 a1 a2 a3 a4 a5 a6 a7) as Hacc.
  destruct (np.accumulate plus (a0, a1, a2, a3, a4, a5, a6, a7) more)
    as [[[[[[[[s0 s1] s2] s3] s4] s5] s6] s7] rest].
  rewrite fold_left_terms. cbn [terms].
  unfold all_terms at 2. cbn [mbind list_bind]. fold (all_terms more).
  rewrite <- !app_assoc. exact Hacc.
Qed.

Lemma pairwise_sum_terms (d : nat) (ts : list summation) :
  terms (np.pairwise_sum plus (zero true) d ts) ≡ₚ all_terms ts.
Proof.
  revert ts. induction d as [|d IH]; intros ts; cbn [np.pairwise_sum].
  - apply block_sum_terms.
  - destruct (length ts <=? 128)%nat; [apply block_sum_terms|].
    cbv zeta. cbn [terms]. rewrite !IH. unfold all_terms.
    rewrite <- bind_app. by rewrite take_drop.
Qed.

Lemma all_terms_values (values : list float) :
  all_terms (map term values) = values.
Proof.
  unfold all_terms. induction values as [|v values IH]; cbn; [done|].
  by rewrite IH.
Qed.

(** [np.sum] adds every value once. *)
Lemma np_sum_is_sum (values : list float) : is_sum values (np.sum values).
Proof.
  exists (plus (zero false)
            (np.pairwise_sum plus (zero true) (length values) (map term values))).
  split.
  - cbn [terms]. by rewrite pairwise_sum_terms, all_terms_values.
  - cbn [total]. unfold np.sum. f_equal.
    by rewrite (pairwise_sum_map plus PrimFloat.add total (λ _ _, eq_refl)),
      map_map, map_id.
Qed.

(** Eight values are added in pairs of running sums, which is not the sum
    from left to right: on these eight cells the two differ in the last
    place, and so do the means rounded to two decimals. *)
Lemma np_sum_of_eight_values :
  let values := [1.75; 1.47; 1.27; 0.29; 1.66; 0.97; 0.98; 0.53]%float in
  np.sum values =
    (0 + (((1.75 + 1.47) + (1.27 + 0.29)) + ((1.66 + 0.97) + (0.98 + 0.53))))%float ∧
  np.round (np.average values) 2 = 1.11%float ∧
  np.round (fold_left PrimFloat.add values 0 / 8)%float 2 = 1.12%float.
Proof. vm_compute. done. Qed.

Lemma np_average_is_average (values : list float) :
  is_average values (np.average values).
Proof. exists (np.sum values). split; [apply np_sum_is_sum|reflexivity]. Qed.

Lemma np_std_is_population (values : list float) :
  is_population_standard_deviation values (np.std values np.default_ddof).
Proof.
  exists (np.average values),
    (np.sum (squared_deviations (np.average values) values)).
  split_and!; [apply np_average_is_average|apply np_sum_is_sum|].
  unfold np.std, np.var, np.default_ddof, squared_deviations, np.average.
  rewrite map_map, Z.sub_0_r, Z.max_l by lia. reflexivity.
Qed.

(** ** Table statistics *)

Section statistics.
Variable parse_numeric : PyVal → float.

Lemma collect_loop (items : list (TableIndex * Field)) :
  ∀ (a : TableAnalyzer) (tv : Dict.t TableIndex (list float)),
  Forall (λ item, tags item.2 ≠ []) items →
  for_each items (λ '(idx, table),
      tag ← tags0 table;
      let table_df := df tag in
      let values := get_table_values parse_numeric table_df None in
      match values with
      | [] => warning (NoParsedValue idx)
      | _ :: _ =>
          a ← get_self;
          tv ← expect TypeError (table_values a);
          update (with_table_values (Some (Dict.set idx values tv)))
      end) (with_table_values (Some tv) a) =
  (Ok (), with_table_values (Some (collected parse_numeric items tv)) a,
   collect_log parse_numeric items).
Proof.
  induction items as [|[idx table] items IH]; intros a tv Htags; [done|].
  apply Forall_cons_1 in Htags as [Htag Htags]. cbn in Htag.
  destruct (tags table) as [|tag rest] eqn:Etags; [done|].
  rewrite for_each_cons. hide_loop items IH loop.
  unfold collected, collect_log. cbn [fold_left flat_map fst snd].
  fold (collect_log parse_numeric items).
  unfold tags0. rewrite Etags. run.
  destruct (get_table_values parse_numeric (df tag) None) as [|v vs] eqn:Evals;
    run.
  - by rewrite IH.
  - change (with_table_values ?v (with_table_values _ a))
      with (with_table_values v a).
    by rewrite IH.
Qed.

Lemma collect_tables_values_run (a : TableAnalyzer) :
  Forall (λ item, tags item.2 ≠ []) (tagged_tables a) →
  collect_tables_values parse_numeric a =
  (Ok (),
   with_table_values (Some (collected parse_numeric (tagged_tables a) [])) a,
   collect_log parse_numeric (tagged_tables a)).
Proof.
  intros Htags. unfold collect_tables_values.
  run. by rewrite_loop (collect_loop _ a [] Htags).
Qed.

(** The columns built by the loop of [get_table_results], from columns that
    are there already. *)
Lemma results_columns (items : list (TableIndex * list float))
    (ms ss ps ts : list PyVal) :
  fold_left (λ results '(idx, values),
      let mean := calculate_mean values in
      let std := calculate_std values in
      let '(page, table_idx) := idx : TableIndex in
      let results := dd_append "mean" (PFloat mean) results in
      let results := dd_append "std" (PFloat std) results in
      let results := dd_append "page number" (PInt page) results in
      dd_append "table index" (PInt table_idx) results)
    items
    [("mean", ms); ("std", ss); ("page number", ps); ("table index", ts)] =
  [("mean", ms ++ map (λ e, PFloat (calculate_mean e.2)) items);
   ("std", ss ++ map (λ e, PFloat (calculate_std e.2)) items);
   ("page number", ps ++ map (λ e, PInt e.1.1) items);
   ("table index", ts ++ map (λ e, PInt e.1.2) items)].
Proof.
  revert ms ss ps ts.
  induction items as [|[[page table_idx] values] items IH]; intros ms ss ps ts.
  - cbn. by rewrite !app_nil_r.
  - cbn [fold_left]. cbv beta iota zeta.
    assert (Hround : ∀ m s p t,
      dd_append "table index" t (dd_append "page number" p
        (dd_append "std" s (dd_append "mean" m
          [("mean", ms); ("std", ss); ("page number", ps); ("table index", ts)])))
      = [("mean", ms ++ [m]); ("std", ss ++ [s]); ("page number", ps ++ [p]);
         ("table index", ts ++ [t])]) by reflexivity.
    rewrite Hround.
    rewrite IH. cbn [map fst snd]. by rewrite <- !app_assoc.
Qed.

Lemma rows_of_columns {E} (f1 f2 f3 f4 : E → PyVal) (l : list E) :
  map (λ i, omap (λ c : list PyVal, c !! i) [map f1 l; map f2 l; map f3 l; map f4 l])
    (seq 0 (length l)) =
  map (λ e, [f1 e; f2 e; f3 e; f4 e]) l.
Proof.
  apply list_eq. intros i. rewrite !list_lookup_fmap.
  destruct (decide (i < length l)%nat) as [Hlt|Hge].
  - rewrite lookup_seq_lt by done.
    destruct (lookup_lt_is_Some_2 l i Hlt) as [e He].
    cbn. rewrite !list_lookup_fmap, He. reflexivity.
  - rewrite lookup_seq_ge by lia. rewrite lookup_ge_None_2 by lia. reflexivity.
Qed.

Lemma from_dict_columns (c1 c2 c3 c4 : list PyVal) (n : nat) :
  length c1 = n → length c2 = n → length c3 = n → length c4 = n →
  pd.from_dict
    [("mean", c1); ("std", c2); ("page number", c3); ("table index", c4)] =
  Ok {| pd.columns := ["mean"; "std"; "page number"; "table index"];
        pd.index := pd.range_index n;
        pd.index_name := None;
        pd.values := map (λ i, omap (λ c : list PyVal, c !! i) [c1; c2; c3; c4])
                       (seq 0 n) |}.
Proof.
  intros H1 H2 H3 H4. unfold pd.from_dict. cbn [Dict.values Dict.keys fmap list_fmap fst snd forallb].
  rewrite H1, H2, H3, H4, Nat.eqb_refl. reflexivity.
Qed.

(** The frame that [get_table_results] builds from [table_values]. *)
Lemma results_frame (items : list (TableIndex * list float)) :
  pd.from_dict
    (fold_left (λ results '(idx, values),
        let mean := calculate_mean values in
        let std := calculate_std values in
        let '(page, table_idx) := idx : TableIndex in
        let results := dd_append "mean" (PFloat mean) results in
        let results := dd_append "std" (PFloat std) results in
        let results := dd_append "page number" (PInt page) results in
        dd_append "table index" (PInt table_idx) results)
      items Dict.empty) =
  Ok (stats_report calculate_mean calculate_std items).
Proof.
  destruct items as [|[[page table_idx] values] items]; [reflexivity|].
  cbn [fold_left]. cbv beta iota zeta.
  change (dd_append "table index" ?t (dd_append "page number" ?p
            (dd_append "std" ?s (dd_append "mean" ?m Dict.empty))))
    with [("mean", [m]); ("std", [s]); ("page number", [p]); ("table index", [t])].
  rewrite results_columns.
  rewrite (from_dict_columns _ _ _ _ (S (length items)))
    by (cbn; by rewrite length_map).
  unfold stats_report. f_equal. f_equal.
  apply (rows_of_columns
           (λ e : TableIndex * list float, PFloat (calculate_mean e.2))
           (λ e, PFloat (calculate_std e.2))
           (λ e, PInt e.1.1) (λ e, PInt e.1.2)
           ((page, table_idx, values) :: items)).
Qed.

(** [get_table_results] when every referenced table has a tag: the report
    over the collected values, which are left in [table_values], and the
    diagnostics of the collection. *)
Lemma get_table_results_run (a : TableAnalyzer) :
  Forall (λ item, tags item.2 ≠ []) (tagged_tables a) →
  get_table_results parse_numeric a =
  (Ok (stats_report calculate_mean calculate_std
         (collected parse_numeric (tagged_tables a) [])),
   with_table_values (Some (collected parse_numeric (tagged_tables a) [])) a,
   collect_log parse_numeric (tagged_tables a)).
Proof.
  intros Htags. unfold get_table_results.
  rewrite bind_run, (collect_tables_values_run a Htags).
  unfold attr_table_values_items. run.
  rewrite results_frame. by rewrite !app_nil_r.
Qed.

Lemma collected_app (xs ys : list (TableIndex * Field))
    (tv : Dict.t TableIndex (list float)) :
  collected parse_numeric (xs ++ ys) tv =
  collected parse_numeric ys (collected parse_numeric xs tv).
Proof. unfold collected. by rewrite fold_left_app. Qed.

Lemma collect_log_app (xs ys : list (TableIndex * Field)) :
  collect_log parse_numeric (xs ++ ys) =
  collect_log parse_numeric xs ++ collect_log parse_numeric ys.
Proof. unfold collect_log. by rewrite flat_map_app. Qed.

Lemma collected_unparsed (idx : TableIndex) (table : Field)
    (tv : Dict.t TableIndex (list float)) :
  no_parsed_value parse_numeric table →
  collected parse_numeric [(idx, table)] tv = tv ∧
  collect_log parse_numeric [(idx, table)] = [NoParsedValue idx].
Proof.
  intros (tag & Htag & Hvals). unfold collected, collect_log. cbn.
  by rewrite Htag, Hvals.
Qed.

Lemma collected_all_unparsed (items : list (TableIndex * Field))
    (tv : Dict.t TableIndex (list float)) :
  Forall (λ item, no_parsed_value parse_numeric item.2) items →
  collected parse_numeric items tv = tv ∧
  collect_log parse_numeric items = map (λ item, NoParsedValue item.1) items.
Proof.
  induction 1 as [|[idx table] items Hx _ [IH1 IH2]]; [done|].
  change ((idx, table) :: items) with ([(idx, table)] ++ items).
  rewrite collected_app, collect_log_app.
  destruct (collected_unparsed idx table tv Hx) as [-> ->].
  rewrite IH1, IH2. done.
Qed.

Lemma collected_get_None (items : list (TableIndex * Field))
    (tv : Dict.t TableIndex (list float)) (k : TableIndex) :
  k ∉ Dict.keys items → Dict.get k tv = None →
  Dict.get k (collected parse_numeric items tv) = None.
Proof.
  revert tv. induction items as [|[idx table] items IH]; intros tv Hk Hget.
  - done.
  - unfold Dict.keys in Hk. cbn in Hk. apply not_elem_of_cons in Hk as [Hne Hk].
    unfold collected. cbn [fold_left fst snd]. apply IH; [done|].
    destruct (head (tags table)) as [tag|]; [|done].
    destruct (get_table_values parse_numeric (df tag) None); [done|].
    by rewrite dict_get_set_ne.
Qed.

Lemma no_parsed_value_tagged (table : Field) :
  no_parsed_value parse_numeric table → tags table ≠ [].
Proof. intros (tag & Htag & _) E. by rewrite E in Htag. Qed.

(** C10: when no referenced table yields a parsed value, [get_table_results]
    leaves [table_values] empty and returns a frame without any column (and
    without rows): the columns mean, std, page number and table index are
    not there, and [df.empty] holds. *)
Theorem get_table_results_no_values (a : TableAnalyzer) :
  Forall (λ item, no_parsed_value parse_numeric item.2) (tagged_tables a) →
  ∃ report,
    get_table_results parse_numeric a =
      (Ok report, with_table_values (Some []) a,
       map (λ item, NoParsedValue item.1) (tagged_tables a)) ∧
    pd.columns report = [] ∧ pd.index report = [] ∧ pd.values report = [] ∧
    pd.empty report = true.
Proof.
  intros Hnone.
  assert (Htags : Forall (λ item, tags item.2 ≠ []) (tagged_tables a)).
  { eapply Forall_impl; [|exact Hnone]. intros item. apply no_parsed_value_tagged. }
  rewrite (get_table_results_run a Htags).
  destruct (collected_all_unparsed (tagged_tables a) [] Hnone) as [-> ->].
  eexists. split; [reflexivity|]. done.
Qed.

(** C9: a referenced table of which no cell parses to a number is skipped
    with a warning: it gets no entry in [table_values] and no row in the
    report, and the report and [table_values] are those of the run in which
    that table is not referenced at all. *)
Theorem unparsed_table_skipped (a : TableAnalyzer)
    (pre post : list (TableIndex * Field)) (idx : TableIndex) (table : Field) :
  tagged_tables a = pre ++ (idx, table) :: post →
  idx ∉ Dict.keys pre → idx ∉ Dict.keys post →
  Forall (λ item, tags item.2 ≠ []) (tagged_tables a) →
  no_parsed_value parse_numeric table →
  ∃ tv lg,
    get_table_results parse_numeric a =
      (Ok (stats_report calculate_mean calculate_std tv),
       with_table_values (Some tv) a, lg) ∧
    NoParsedValue idx ∈ lg ∧
    Dict.get idx tv = None ∧
    length (pd.values (stats_report calculate_mean calculate_std tv)) = length tv ∧
    let a0 := with_tagged_tables (pre ++ post) a in
    (get_table_results parse_numeric a0).1.1 =
      Ok (stats_report calculate_mean calculate_std tv) ∧
    table_values (get_table_results parse_numeric a0).1.2 = Some tv.
Proof.
  intros Htagged Hpre Hpost Htags Hnone.
  rewrite (get_table_results_run a Htags). rewrite Htagged in *.
  destruct (collected_unparsed idx table (collected parse_numeric pre []) Hnone)
    as [Hskip Hwarn].
  assert (Hsame : collected parse_numeric (pre ++ (idx, table) :: post) [] =
                  collected parse_numeric (pre ++ post) []).
  { change ((idx, table) :: post) with ([(idx, table)] ++ post).
    by rewrite !collected_app, Hskip. }
  eexists _, _. split; [reflexivity|]. split_and!.
  - change ((idx, table) :: post) with ([(idx, table)] ++ post).
    rewrite !collect_log_app, Hwarn.
    apply elem_of_app. right. apply elem_of_app. left. apply list_elem_of_singleton. done.
  - rewrite Hsame. apply collected_get_None; [|done].
    unfold Dict.keys in *. rewrite fmap_app.
    intros [?|?]%elem_of_app; done.
  - destruct (collected parse_numeric (pre ++ (idx, table) :: post) []);
      [done|]. cbn. by rewrite length_map.
  - cbn zeta. rewrite get_table_results_run.
    + cbn. by rewrite Hsame.
    + cbn. apply Forall_app in Htags as [H1 H2].
      apply Forall_cons_1 in H2 as [_ H2]. by apply Forall_app.
Qed.

(** C6: the mean of a list of values is an average of them (a floating-point
    sum of all the values over their number [N]) rounded to two decimals, and
    the std is a population standard deviation (the root of a sum of the
    squared deviations from an average, over [N], not [N - 1]) rounded to
    two decimals; these are the mean and std cells of the report row of
    every entry of [table_values].  On [1, 2, 3, 4] they are 2.5 and 1.12,
    where a sample standard deviation rounds to 1.29. *)
Theorem statistics_are_rounded_population_moments :
  (∀ values : list float,
     (∃ m, is_average values m ∧ calculate_mean values = np.round m 2) ∧
     (∃ sd, is_population_standard_deviation values sd ∧
            calculate_std values = np.round sd 2)) ∧
  (∀ a : TableAnalyzer,
     Forall (λ item, tags item.2 ≠ []) (tagged_tables a) →
     ∃ report tv lg,
       get_table_results parse_numeric a =
         (Ok report, with_table_values (Some tv) a, lg) ∧
       pd.values report = map (stats_row calculate_mean calculate_std) tv) ∧
  calculate_mean [1; 2; 3; 4]%float = 2.5%float ∧
  calculate_std [1; 2; 3; 4]%float = 1.12%float ∧
  (∃ sd, is_sample_standard_deviation [1; 2; 3; 4]%float sd ∧
         np.round sd 2 = 1.29%float).
Proof.
  split_and!.
  - intros values. split.
    + eexists. split; [apply np_average_is_average|reflexivity].
    + eexists. split; [apply np_std_is_population|reflexivity].
  - intros a Htags. rewrite (get_table_results_run a Htags).
    eexists _, _, _. split; [reflexivity|].
    by destruct (collected parse_numeric (tagged_tables a) []).
  - vm_compute. reflexivity.
  - vm_compute. reflexivity.
  - exists (PrimFloat.sqrt
      (np.sum (squared_deviations (np.average [1; 2; 3; 4]%float)
                 [1; 2; 3; 4]%float) / 3)%float).
    split; [|vm_compute; reflexivity].
    exists (np.average [1; 2; 3; 4]%float),
      (np.sum (squared_deviations (np.average [1; 2; 3; 4]%float)
                 [1; 2; 3; 4]%float)).
    split_and!; [apply np_average_is_average|apply np_sum_is_sum|].
    vm_compute. reflexivity.
Qed.

End statistics.

(** ** Matching a field against the tables *)

Section matching.
Variable matches : Tag → Tag → float → bool.

Lemma scan_tables_first_match (field : Field) (ftag : Tag)
    (pre post : list (TableIndex * Field)) (idx : TableIndex) (table : Field)
    (ttag : Tag) (a : TableAnalyzer) :
  head (tags field) = Some ftag →
  none_matches matches ftag a pre →
  head (tags table) = Some ttag →
  matches ftag ttag (threshold a) = true →
  scan_tables matches field (pre ++ (idx, table) :: post) a =
  (Ok true,
   if Dict.contains idx (tagged_tables a) then a
   else with_tagged_tables (Dict.set idx table (tagged_tables a)) a,
   []).
Proof.
  intros Hf Hpre Ht Hm.
  induction Hpre as [|[idx' table'] pre (ttag' & Ht' & Hm') _ IH].
  - cbn [app scan_tables]. unfold tags0. rewrite Hf, Ht. run.
    rewrite Hm. by destruct (Dict.contains idx (tagged_tables a)).
  - cbn [app scan_tables]. cbn in Ht'. unfold tags0 at 1 2. rewrite Hf, Ht'.
    revert IH. generalize (scan_tables matches field (pre ++ (idx, table) :: post)).
    intros rest IH. run. rewrite Hm', IH.
    by destruct (Dict.contains idx (tagged_tables a)).
Qed.

Lemma scan_tables_no_match (field : Field) (ftag : Tag)
    (items : list (TableIndex * Field)) (a : TableAnalyzer) :
  head (tags field) = Some ftag →
  none_matches matches ftag a items →
  scan_tables matches field items a = (Ok false, a, []).
Proof.
  intros Hf Hnone.
  induction Hnone as [|[idx' table'] items (ttag' & Ht' & Hm') _ IH]; [done|].
  cbn [scan_tables]. cbn in Ht'. unfold tags0 at 1 2. rewrite Hf, Ht'.
  revert IH. generalize (scan_tables matches field items).
  intros rest IH. run. by rewrite Hm', IH.
Qed.

(** A field that no table matches is recorded under its category, after the
    entries that are there, and a warning names it. *)
Lemma check_field_unmatched (py_name : string) (field : Field) (ftag : Tag)
    (items : list (TableIndex * Field)) (a : TableAnalyzer) :
  tables a = Some items →
  head (tags field) = Some ftag →
  none_matches matches ftag a items →
  check_field_value_in_table matches py_name field a =
  (Ok (),
   with_fields_outside_of_tables
     (Dict.set py_name
        (match Dict.get py_name (fields_outside_of_tables a) with
         | Some entries => entries ++ [(page_number ftag, value field)]
         | None => [(page_number ftag, value field)]
         end) (fields_outside_of_tables a)) a,
   [FieldNotInAnyTable py_name (value field) (page_number ftag)]).
Proof.
  intros Htables Hf Hnone. unfold check_field_value_in_table, attr_tables_items.
  rewrite bind_run. run. rewrite Htables. run.
  rewrite (scan_tables_no_match field ftag items a Hf Hnone).
  unfold tags0. rewrite Hf. run.
  destruct (Dict.get py_name (fields_outside_of_tables a)); by run.
Qed.

(** C3: the tables are scanned in the order of the index mapping; at the
    first one whose first tag matches the field's first tag the scan stops:
    that table's index is recorded as referenced if it was not, whatever
    tables follow it (matching or not), and nothing else changes: the
    referenced tables get no other new key, the field is not recorded as
    unmatched and no warning is emitted. *)
Theorem first_match_wins (py_name : string) (field : Field) (ftag : Tag)
    (pre post : list (TableIndex * Field)) (idx : TableIndex) (table : Field)
    (ttag : Tag) (a : TableAnalyzer) :
  tables a = Some (pre ++ (idx, table) :: post) →
  head (tags field) = Some ftag →
  none_matches matches ftag a pre →
  head (tags table) = Some ttag →
  matches ftag ttag (threshold a) = true →
  ∃ a',
    check_field_value_in_table matches py_name field a = (Ok (), a', []) ∧
    tagged_tables a' =
      (if Dict.contains idx (tagged_tables a) then tagged_tables a
       else tagged_tables a ++ [(idx, table)]) ∧
    (∀ idx', idx' ≠ idx →
       Dict.get idx' (tagged_tables a') = Dict.get idx' (tagged_tables a)) ∧
    fields_outside_of_tables a' = fields_outside_of_tables a.
Proof.
  intros Htables Hf Hpre Ht Hm.
  unfold check_field_value_in_table, attr_tables_items.
  rewrite bind_run. run. rewrite Htables. run.
  rewrite (scan_tables_first_match field ftag pre post idx table ttag a Hf Hpre Ht Hm).
  run. eexists. split; [reflexivity|].
  destruct (Dict.contains idx (tagged_tables a)) eqn:Hin; [done|].
  cbn. split_and!; [|intros idx' Hne; by rewrite dict_get_set_ne|done].
  apply dict_set_fresh. intros Hk. apply dict_contains_true in Hk. congruence.
Qed.

(** C8: when the first table that matches a field is referenced already,
    checking the field changes nothing: the referenced tables keep their
    keys and their tables, the field is not recorded as unmatched and no
    warning is emitted. *)
Theorem referenced_registration_idempotent (py_name : string) (field : Field)
    (ftag : Tag) (pre post : list (TableIndex * Field)) (idx : TableIndex)
    (table : Field) (ttag : Tag) (a : TableAnalyzer) :
  tables a = Some (pre ++ (idx, table) :: post) →
  head (tags field) = Some ftag →
  none_matches matches ftag a pre →
  head (tags table) = Some ttag →
  matches ftag ttag (threshold a) = true →
  Dict.contains idx (tagged_tables a) = true →
  check_field_value_in_table matches py_name field a = (Ok (), a, []).
Proof.
  intros Htables Hf Hpre Ht Hm Hin.
  unfold check_field_value_in_table, attr_tables_items.
  rewrite bind_run. run. rewrite Htables. run.
  rewrite (scan_tables_first_match field ftag pre post idx table ttag a Hf Hpre Ht Hm).
  run. by rewrite Hin.
Qed.

(** *** Changes of the analyzer that matching does not see *)

Lemma frame_with_document (v : option Document) : frame (with_document v).
Proof. by split. Qed.

Lemma frame_with_table_values (v : option (Dict.t TableIndex (list float))) :
  frame (with_table_values v).
Proof. by split. Qed.

Lemma framed_for_each {X} (g : TableAnalyzer → TableAnalyzer)
    (xs : list X) (body : X → M unit) :
  (∀ x, framed g (body x)) → framed g (for_each xs body).
Proof.
  intros Hbody. induction xs as [|x xs IH]; intros a; [done|].
  rewrite !for_each_cons, !bind_run, (Hbody x a).
  destruct (body x a) as [[[[]|e] a1] l1]; [|done].
  rewrite (IH a1). by destruct (for_each xs body a1) as [[r a2] l2].
Qed.

Lemma framed_scan_tables (g : TableAnalyzer → TableAnalyzer) (field : Field)
    (items : list (TableIndex * Field)) :
  frame g → framed g (scan_tables matches field items).
Proof.
  intros Hg. induction items as [|[idx table] items IH]; intros a; [done|].
  cbn [scan_tables]. unfold tags0.
  destruct (head (tags field)) as [ftag|]; [|done].
  destruct (head (tags table)) as [ttag|]; [|done].
  revert IH. generalize (scan_tables matches field items). intros rest IH.
  run. rewrite (frame_threshold g Hg), (frame_tagged_tables g Hg).
  destruct (matches ftag ttag (threshold a)).
  - destruct (Dict.contains idx (tagged_tables a)); [done|].
    by rewrite <- (frame_set_tagged_tables g Hg).
  - rewrite (IH a). by destruct (rest a) as [[r a'] l].
Qed.

Lemma framed_check_field (g : TableAnalyzer → TableAnalyzer)
    (py_name : string) (field : Field) :
  frame g → framed g (check_field_value_in_table matches py_name field).
Proof.
  intros Hg a. unfold check_field_value_in_table, attr_tables_items.
  rewrite !bind_run. run. rewrite (frame_tables g Hg).
  destruct (tables a) as [items|]; [|done]. run.
  rewrite (framed_scan_tables g field items Hg a).
  destruct (scan_tables matches field items a) as [[[[]|e] a1] l1]; [done| |done].
  unfold tags0. rewrite (frame_fields_outside g Hg).
  destruct (head (tags field)) as [ftag|].
  - destruct (Dict.get py_name (fields_outside_of_tables a1)); run;
      by rewrite <- (frame_set_fields_outside g Hg).
  - by destruct (Dict.get py_name (fields_outside_of_tables a1)).
Qed.

End matching.

(** ** What matching keeps *)

Section stability.
Variable matches : Tag → Tag → float → bool.
Variable I : TableAnalyzer → Prop.
Hypothesis HI : stable I.

Lemma for_each_keeps {X} (xs : list X) (body : X → M unit) :
  (∀ x a, I a → I (body x a).1.2) → ∀ a, I a → I (for_each xs body a).1.2.
Proof.
  intros Hbody. induction xs as [|x xs IH]; intros a Ha; [done|].
  rewrite for_each_cons, bind_run. specialize (Hbody x a Ha).
  destruct (body x a) as [[[[]|e] a1] l1]; [|done].
  specialize (IH a1 Hbody). by destruct (for_each xs body a1) as [[r a2] l2].
Qed.

Lemma scan_tables_keeps (field : Field) (items : list (TableIndex * Field))
    (a : TableAnalyzer) :
  I a → I (scan_tables matches field items a).1.2.
Proof.
  intros Ha. induction items as [|[idx table] items IH]; [done|].
  cbn [scan_tables]. unfold tags0.
  destruct (head (tags field)) as [ftag|]; [|done].
  destruct (head (tags table)) as [ttag|] eqn:Et; [|done].
  revert IH. generalize (scan_tables matches field items). intros rest IH.
  run. destruct (matches ftag ttag (threshold a)).
  - destruct (Dict.contains idx (tagged_tables a)); [done|].
    cbn. apply HI; [done|]. intros E. by rewrite E in Et.
  - by destruct (rest a) as [[r a'] l].
Qed.

Lemma check_field_keeps (py_name : string) (field : Field) (a : TableAnalyzer) :
  I a → I (check_field_value_in_table matches py_name field a).1.2.
Proof.
  intros Ha. unfold check_field_value_in_table, attr_tables_items.
  rewrite !bind_run. run.
  destruct (tables a) as [items|]; [|done]. run.
  pose proof (scan_tables_keeps field items a Ha) as Hscan.
  destruct (scan_tables matches field items a) as [[[[]|e] a1] l1]; [done| |done].
  cbn in Hscan. unfold tags0.
  destruct (head (tags field)) as [ftag|].
  - destruct (Dict.get py_name (fields_outside_of_tables a1)); run; by apply HI.
  - by destruct (Dict.get py_name (fields_outside_of_tables a1)).
Qed.

Lemma check_categories_keeps (d : Document) (a : TableAnalyzer) :
  I a → I (check_categories matches d a).1.2.
Proof.
  apply for_each_keeps. clear a. intros py_name a Ha.
  rewrite bind_run. destruct (Dict.get py_name (x d)) as [fields|]; [|done]. run.
  pose proof (for_each_keeps fields
    (λ field, match tags field with
              | [] => mret ()
              | _ :: _ => check_field_value_in_table matches py_name field
              end)) as Hloop.
  fold (check_category matches py_name fields) in Hloop.
  specialize (Hloop (λ field b Hb,
    match tags field as t return
      I (match t with
         | [] => mret ()
         | _ :: _ => check_field_value_in_table matches py_name field
         end b).1.2 with
    | [] => Hb
    | _ :: _ => check_field_keeps py_name field b Hb
    end) a Ha).
  by destruct (check_category matches py_name fields a) as [[r a'] l].
Qed.

End stability.

Lemma dict_set_Forall {K V} `{EqDecision K} (Q : V → Prop) (d : Dict.t K V)
    (k : K) (v : V) :
  Forall (λ item, Q item.2) d → Q v → Forall (λ item, Q item.2) (Dict.set k v d).
Proof.
  intros Hd Hv. induction Hd as [|[k' v'] d Hx Hd IH]; cbn.
  - by apply Forall_cons.
  - destruct (decide (k = k')); apply Forall_cons; done.
Qed.

Lemma stable_referenced_tagged : stable referenced_tagged.
Proof.
  split; [done|]. intros idx table a Ha Ht. unfold referenced_tagged in *. cbn.
  by apply (dict_set_Forall (λ t, tags t ≠ [])).
Qed.

Lemma stable_tables (t : option (Dict.t TableIndex Field)) :
  stable (λ a, tables a = t).
Proof. by split. Qed.

(** ** A run of [check_fields] *)

Section check_loops.
Variable matches : Tag → Tag → float → bool.

Lemma framed_check_category (g : TableAnalyzer → TableAnalyzer)
    (py_name : string) (fields : list Field) :
  frame g → framed g (check_category matches py_name fields).
Proof.
  intros Hg. apply framed_for_each. intros field.
  destruct (tags field); [done|]. by apply framed_check_field.
Qed.

Lemma framed_check_categories (g : TableAnalyzer → TableAnalyzer) (d : Document) :
  frame g → framed g (check_categories matches d).
Proof.
  intros Hg. apply framed_for_each. intros py_name a.
  destruct (Dict.get py_name (x d)) as [fields|]; [|done].
  rewrite !bind_run. run.
  rewrite (framed_check_category g py_name fields Hg a).
  by destruct (check_category matches py_name fields a) as [[r a'] l].
Qed.

(** The untagged fields of a category are passed over. *)
Lemma check_category_tagged (py_name : string) (fields : list Field)
    (a : TableAnalyzer) :
  check_category matches py_name (filter (λ o, tagged o) fields) a =
  check_category matches py_name fields a.
Proof.
  revert a. induction fields as [|field fields IH]; intros a; [done|].
  rewrite filter_cons. unfold check_category in *.
  destruct (tags field) as [|tag rest] eqn:Etags.
  - rewrite decide_False by (unfold tagged; rewrite Etags; cbn; tauto).
    rewrite for_each_cons, bind_run, Etags.
    run. rewrite IH. by destruct (for_each fields _ a) as [[r a'] l].
  - rewrite decide_True by (unfold tagged; rewrite Etags; cbn; tauto).
    rewrite !for_each_cons, !bind_run, Etags.
    destruct (check_field_value_in_table matches py_name field a)
      as [[[[]|e] a1] l1]; [|done].
    by rewrite IH.
Qed.

Lemma for_each_ext {X} (xs : list X) (body body' : X → M unit) (a : TableAnalyzer) :
  (∀ x b, body x b = body' x b) → for_each xs body a = for_each xs body' a.
Proof.
  intros Hext. revert a. induction xs as [|x xs IH]; intros a; [done|].
  rewrite !for_each_cons, !bind_run, Hext.
  destruct (body' x a) as [[[[]|e] a1] l1]; [|done]. by rewrite IH.
Qed.

Lemma keys_without_untagged (name : string) (d : Document) :
  Dict.keys (x (without_untagged name d)) = Dict.keys (x d).
Proof.
  unfold Dict.keys, without_untagged. cbn. induction (x d) as [|[k v] l IH]; [done|].
  cbn. rewrite IH. by destruct (decide (k = name)).
Qed.

Lemma get_without_untagged (name py_name : string) (d : Document) :
  Dict.get py_name (x (without_untagged name d)) =
  (λ fields, if decide (py_name = name)
             then filter (λ o, tagged o) fields else fields)
    <$> Dict.get py_name (x d).
Proof.
  unfold without_untagged. cbn. induction (x d) as [|[k v] l IH]; [done|].
  cbn. destruct (decide (k = name)) as [->|Hne]; cbn.
  - destruct (decide (py_name = name)) as [->|Hne']; [done|]. by rewrite IH.
  - destruct (decide (py_name = k)) as [->|Hne'].
    + cbn. by rewrite decide_False.
    + by rewrite IH.
Qed.

(** The untagged entries of a category make no difference to the loops. *)
Lemma check_categories_without_untagged (name : string) (d : Document)
    (a : TableAnalyzer) :
  check_categories matches (without_untagged name d) a =
  check_categories matches d a.
Proof.
  unfold check_categories. rewrite keys_without_untagged.
  apply for_each_ext. intros py_name b.
  rewrite get_without_untagged, !bind_run.
  destruct (Dict.get py_name (x d)) as [fields|]; [|done]. run.
  destruct (decide (py_name = name)); [|done].
  by rewrite check_category_tagged.
Qed.

End check_loops.

Section check_fields.
Variable matches : Tag → Tag → float → bool.
Variable assign_indices_to_tables : list Field → Dict.t TableIndex Field.

Lemma for_fold_cons {X S} (x : X) (xs : list X) (body : S → X → M S) (s : S) :
  for_fold (x :: xs) body s = (s' ← body s x; for_fold xs body s').
Proof. reflexivity. Qed.

Lemma tagged_tables_loop (d : Document) (category acc : list Field)
    (a : TableAnalyzer) :
  document a = Some d →
  for_fold category (λ tables table,
      match tags table with
      | [] =>
          doc ← attr_document;
          warning (TableHasNoTags (doc_id doc));;
          mret tables
      | _ :: _ => mret (tables ++ [table])
      end) acc a =
  (Ok (acc ++ filter (λ o, tagged o) category), a, untagged_warnings d category).
Proof.
  intros Hdoc. revert acc.
  induction category as [|table category IH]; intros acc.
  - cbn. by rewrite app_nil_r.
  - rewrite for_fold_cons. revert IH.
    match goal with
    | |- context [for_fold category ?b] => generalize (for_fold category b)
    end.
    intros loop IH. unfold untagged_warnings. rewrite !filter_cons.
    unfold attr_document.
    destruct (tags table) as [|tag rest] eqn:Etags.
    + assert (Hno : ¬ tagged table) by (unfold tagged; rewrite Etags; cbn; tauto).
      rewrite (decide_False (P := Is_true (tagged table))) by done.
      rewrite (decide_True (P := ¬ tagged table)) by done.
      run. rewrite Hdoc. run. by rewrite IH.
    + assert (Hyes : tagged table) by (unfold tagged; rewrite Etags; cbn; tauto).
      rewrite (decide_True (P := Is_true (tagged table))) by done.
      rewrite (decide_False (P := ¬ tagged table)) by tauto.
      run. rewrite IH. by rewrite <- app_assoc.
Qed.

(** [get_table_dict] once [self.document] is set. *)
Lemma get_table_dict_run (d : Document) (a : TableAnalyzer) :
  document a = Some d →
  get_table_dict assign_indices_to_tables a =
  match Dict.get (table_name a) (x d) with
  | Some category =>
      (Ok (),
       with_tables
         (Some (assign_indices_to_tables (filter (λ o, tagged o) category))) a,
       untagged_warnings d category)
  | None => (Raise KeyError, a, [])
  end.
Proof.
  intros Hdoc. unfold get_table_dict.
  rewrite bind_run. unfold attr_document at 1. run. rewrite Hdoc. run.
  destruct (Dict.get (table_name a) (x d)) as [category|]; [|done].
  pose proof (tagged_tables_loop d category [] a Hdoc) as Hloop.
  match type of Hloop with
  | ?lhs = _ =>
      match goal with
      | |- context [for_fold ?xs ?b ?s ?st] =>
          change (for_fold xs b s st) with lhs
      end
  end.
  rewrite Hloop. by rewrite app_nil_r.
Qed.

(** The loops of [check_fields] read the document that was assigned. *)
Lemma check_fields_loops (d : Document) (keys : list string) (a : TableAnalyzer) :
  for_each keys (λ py_name,
      doc ← attr_document;
      fields ← expect KeyError (Dict.get py_name (x doc));
      for_each fields (λ field,
        match tags field with
        | [] => mret ()
        | _ :: _ => check_field_value_in_table matches py_name field
        end)) (with_document (Some d) a) =
  for_each keys (λ py_name,
      fields ← expect KeyError (Dict.get py_name (x d));
      check_category matches py_name fields) (with_document (Some d) a).
Proof.
  revert a. induction keys as [|py_name keys IH]; intros a; [done|].
  rewrite !for_each_cons. revert IH.
  match goal with
  | |- context [for_each keys ?b _ = for_each keys ?b' _] =>
      generalize (for_each keys b); generalize (for_each keys b')
  end.
  intros loop' loop IH.
  rewrite !bind_run. unfold attr_document.
  change (for_each ?fs (λ field, match tags field with
                                 | [] => mret ()
                                 | _ :: _ => check_field_value_in_table matches ?p field
                                 end))
    with (check_category matches p fs).
  run. destruct (Dict.get py_name (x d)) as [fields|]; [|done]. run.
  rewrite (framed_check_category matches (with_document (Some d)) py_name
             fields (frame_with_document _) a).
  destruct (check_category matches py_name fields a) as [[[[]|e] a1] l1]; [|done].
  by rewrite IH.
Qed.

(** A run of [check_fields]. *)
Lemma check_fields_run (d : Document) (a : TableAnalyzer) :
  check_fields matches assign_indices_to_tables d a =
  match Dict.get (table_name a) (x d) with
  | Some category =>
      let a1 :=
        with_tables
          (Some (assign_indices_to_tables (filter (λ o, tagged o) category)))
          (with_document (Some d) a) in
      match check_categories matches d a1 with
      | (Ok _, a2, l) =>
          (unmatched_report (fields_outside_of_tables a2), a2,
           untagged_warnings d category ++ l)
      | (Raise e, a2, l) => (Raise e, a2, untagged_warnings d category ++ l)
      end
  | None => (Raise KeyError, with_document (Some d) a, [])
  end.
Proof.
  unfold check_fields. rewrite bind_run. unfold update at 1. cbv beta iota.
  rewrite bind_run, (get_table_dict_run d (with_document (Some d) a)) by done.
  change (table_name (with_document (Some d) a)) with (table_name a).
  destruct (Dict.get (table_name a) (x d)) as [category|]; [|done].
  cbv beta iota zeta. rewrite bind_run. unfold attr_document at 1.
  run.
  pose proof (check_fields_loops d (Dict.keys (x d))
    (with_tables
       (Some (assign_indices_to_tables (filter (λ o, tagged o) category))) a))
    as Hloop.
  match type of Hloop with
  | ?lhs = _ =>
      match goal with
      | |- context [for_each ?xs ?b ?s] => change (for_each xs b s) with lhs
      end
  end.
  rewrite Hloop. fold (check_categories matches d).
  change (with_document (Some d) (with_tables ?t a))
    with (with_tables t (with_document (Some d) a)).
  destruct (check_categories matches d _) as [[[[]|e] a2] l2]; [|done].
  unfold unmatched_report.
  destruct (pd.DataFrame_init _ _ _); by rewrite ?app_nil_r.
Qed.

End check_fields.

(** ** A whole analysis *)

Section analysis.
Variable matches : Tag → Tag → float → bool.
Variable parse_numeric : PyVal → float.
Variable assign_indices_to_tables : list Field → Dict.t TableIndex Field.

Lemma run_analysis_run (d : Document) (a : TableAnalyzer) :
  run_analysis matches parse_numeric assign_indices_to_tables d a =
  match check_fields matches assign_indices_to_tables d a with
  | (Ok fields_outside, a2, l) =>
      match get_table_results parse_numeric a2 with
      | (Ok results_, a3, l') => (Ok (fields_outside, results_), a3, l ++ l')
      | (Raise e, a3, l') => (Raise e, a3, l ++ l')
      end
  | (Raise e, a2, l) => (Raise e, a2, l)
  end.
Proof.
  unfold run_analysis. rewrite bind_run.
  destruct (check_fields _ _ d a) as [[[fo|e] a2] l]; [|done].
  rewrite bind_run.
  destruct (get_table_results parse_numeric a2) as [[[r|e] a3] l']; [|done].
  run. by rewrite app_nil_r.
Qed.

(** [get_table_results] starts by assigning [table_values]. *)
Lemma get_table_results_overwrites
    (v : option (Dict.t TableIndex (list float))) (a : TableAnalyzer) :
  get_table_results parse_numeric (with_table_values v a) =
  get_table_results parse_numeric a.
Proof. reflexivity. Qed.

Lemma filter_tagged_twice (fields : list Field) :
  filter (λ o, tagged o) (filter (λ o, tagged o) fields) =
  filter (λ o, tagged o) fields.
Proof.
  induction fields as [|o fields IH]; [done|].
  rewrite filter_cons. destruct (decide (tagged o)) as [Ho|Ho]; [|done].
  rewrite filter_cons, decide_True by done. by rewrite IH.
Qed.

(** The reports do not depend on the untagged tables of the document. *)
Lemma run_analysis_without_untagged (d : Document) (a : TableAnalyzer) :
  referenced_tagged a →
  (run_analysis matches parse_numeric assign_indices_to_tables d a).1.1 =
  (run_analysis matches parse_numeric assign_indices_to_tables
     (without_untagged (table_name a) d) a).1.1.
Proof.
  intros Ha. rewrite !run_analysis_run, !check_fields_run.
  rewrite get_without_untagged.
  destruct (Dict.get (table_name a) (x d)) as [category|]; [|done].
  cbn [fmap option_fmap option_map]. rewrite decide_True by done.
  rewrite filter_tagged_twice. cbv zeta.
  rewrite check_categories_without_untagged.
  set (T := Some (assign_indices_to_tables (filter (λ o, tagged o) category))).
  change (with_tables T (with_document ?v a))
    with (with_document v (with_tables T a)).
  rewrite !(framed_check_categories matches (with_document _) d
              (frame_with_document _)).
  pose proof (check_categories_keeps matches referenced_tagged
                stable_referenced_tagged d (with_tables T a) Ha) as Hkeep.
  destruct (check_categories matches d (with_tables T a))
    as [[[[]|e] b] l]; [|done].
  cbn in Hkeep.
  change (fields_outside_of_tables (with_document ?v b))
    with (fields_outside_of_tables b).
  destruct (unmatched_report (fields_outside_of_tables b)); [|done].
  by rewrite !get_table_results_run.
Qed.

(** C7: the tables of the table category that have no tag are left out
    before the indices are assigned, each with a warning; with an indexer
    that returns only tables it was given, the index mapping holds tagged
    tables only, no untagged table is in it or among the referenced tables,
    and both reports are those of the document without its untagged
    tables. *)
Theorem untagged_tables_excluded (d : Document) (a : TableAnalyzer)
    (category : list Field) :
  Dict.get (table_name a) (x d) = Some category →
  referenced_tagged a →
  (∀ item, item ∈ assign_indices_to_tables (filter (λ o, tagged o) category) →
           item.2 ∈ filter (λ o, tagged o) category) →
  ∃ a' l,
    (check_fields matches assign_indices_to_tables d a).1.2 = a' ∧
    (check_fields matches assign_indices_to_tables d a).2 =
      untagged_warnings d category ++ l ∧
    length (untagged_warnings d category) =
      length (filter (λ o, tags o = []) category) ∧
    tables a' =
      Some (assign_indices_to_tables (filter (λ o, tagged o) category)) ∧
    (∀ idx T, tags T = [] →
       (∀ index, tables a' = Some index → (idx, T) ∉ index) ∧
       (idx, T) ∉ tagged_tables a') ∧
    (run_analysis matches parse_numeric assign_indices_to_tables d a).1.1 =
    (run_analysis matches parse_numeric assign_indices_to_tables
       (without_untagged (table_name a) d) a).1.1.
Proof.
  intros Hget Ha Hassign. rewrite check_fields_run, Hget. cbv zeta.
  set (T := assign_indices_to_tables (filter (λ o, tagged o) category)) in *.
  set (a1 := with_tables (Some T) (with_document (Some d) a)).
  pose proof (check_categories_keeps matches referenced_tagged
                stable_referenced_tagged d a1 Ha) as Hkeep.
  pose proof (check_categories_keeps matches (λ b, tables b = Some T)
                (stable_tables _) d a1 eq_refl) as Htables.
  assert (Hindex : ∀ idx o, tags o = [] → (idx, o) ∉ T).
  { intros idx o Ho Hin. apply Hassign in Hin. cbn in Hin.
    apply list_elem_of_filter in Hin as [Htag _].
    unfold tagged in Htag. by rewrite Ho in Htag. }
  assert (Hcount : length (untagged_warnings d category) =
                   length (filter (λ o, tags o = []) category)).
  { unfold untagged_warnings. rewrite length_map. clear.
    induction category as [|o category IH]; [done|].
    rewrite !filter_cons.
    assert (Hiff : ¬ tagged o ↔ tags o = []).
    { unfold tagged. destruct (tags o); cbn; split; (done || tauto). }
    destruct (decide (tags o = [])) as [He|He].
    - rewrite decide_True by by apply Hiff. cbn. by rewrite IH.
    - rewrite decide_False by (by rewrite Hiff). done. }
  destruct (check_categories matches d a1) as [[[[]|e] a2] l2];
    cbn in Hkeep, Htables; exists a2, l2;
    (split_and!; [done|done|done|done| |by apply run_analysis_without_untagged]);
    intros idx o Ho; (split;
      [intros index Hindex'; rewrite Htables in Hindex';
       injection Hindex' as <-; by apply Hindex
      |intros Hin; unfold referenced_tagged in Hkeep;
       apply list.Forall_forall with (x := (idx, o)) in Hkeep; done]).
Qed.

(** C2, as the code has it: a run on an analyzer whose [tagged_tables] and
    [fields_outside_of_tables] are empty, whatever its [document], [tables]
    and [table_values], returns the reports and emits the diagnostics of a
    run on a new analyzer with the same configuration: the run assigns
    [document], [tables] and [table_values] and adds to the other two. *)
Theorem reports_of_reused_analyzer (d2 : Document) (a : TableAnalyzer) :
  tagged_tables a = [] →
  fields_outside_of_tables a = [] →
  (run_analysis matches parse_numeric assign_indices_to_tables d2 a).1.1 =
  (run_analysis matches parse_numeric assign_indices_to_tables d2
     (init (table_name a) (threshold a))).1.1 ∧
  (run_analysis matches parse_numeric assign_indices_to_tables d2 a).2 =
  (run_analysis matches parse_numeric assign_indices_to_tables d2
     (init (table_name a) (threshold a))).2.
Proof.
  intros Htagged Houtside. rewrite !run_analysis_run, !check_fields_run.
  change (table_name (init (table_name a) (threshold a))) with (table_name a).
  destruct (Dict.get (table_name a) (x d2)) as [category|]; [|done].
  cbv zeta.
  set (T := Some (assign_indices_to_tables (filter (λ o, tagged o) category))).
  assert (Hstate : with_tables T (with_document (Some d2) a) =
    with_table_values (table_values a)
      (with_tables T (with_document (Some d2)
         (init (table_name a) (threshold a))))).
  { destruct a. cbn in *. by subst. }
  rewrite Hstate.
  rewrite (framed_check_categories matches (with_table_values _) d2
             (frame_with_table_values _)).
  destruct (check_categories matches d2 _) as [[[[]|e] b] l]; [|done].
  change (fields_outside_of_tables (with_table_values ?v b))
    with (fields_outside_of_tables b).
  destruct (unmatched_report (fields_outside_of_tables b)); [|done].
  rewrite get_table_results_overwrites.
  by destruct (get_table_results parse_numeric b) as [[[r|e] b'] l'].
Qed.

(** C5: without an entry for the table category in the document,
    [check_fields] raises [KeyError], a [LookupError], before anything but
    [self.document] is assigned; no report is built, and the page shows the
    message of the [except KeyError] branch and no report. *)
Theorem missing_table_category_raises (d : Document) :
  (∀ a : TableAnalyzer,
     Dict.get (table_name a) (x d) = None →
     check_fields matches assign_indices_to_tables d a =
       (Raise KeyError, with_document (Some d) a, []) ∧
     (run_analysis matches parse_numeric assign_indices_to_tables d a).1.1 =
       Raise KeyError) ∧
  is_LookupError KeyError = true ∧
  (is_xbrl d = false →
   Dict.get "tables__table" (x d) = None →
   display_document_object matches parse_numeric assign_indices_to_tables d =
   ([st_title "Document Analysis Results"; st_subheader "Table Analysis";
     st_error "The provided document object has no tables under the key"],
    None)).
Proof.
  split_and!; [|done|].
  - intros a Hget. rewrite run_analysis_run, check_fields_run, Hget. done.
  - intros Hx Hget. unfold display_document_object.
    rewrite Hx, run_analysis_run, check_fields_run.
    change (table_name new_extractor) with "tables__table".
    by rewrite Hget.
Qed.

End analysis.

(** ** The analysis on the example documents *)

Lemma get_table_results_no_values_witness :
  ∃ report,
    get_table_results decimal_parse_numeric text_only_analyzer =
      (Ok report, with_table_values (Some []) text_only_analyzer,
       [NoParsedValue (2, 0)]) ∧
    pd.columns report = [] ∧ pd.index report = [] ∧ pd.values report = [] ∧
    pd.empty report = true.
Proof.
  apply (get_table_results_no_values decimal_parse_numeric text_only_analyzer).
  repeat constructor. eexists. split; [reflexivity|]. vm_compute. reflexivity.
Defined.

Lemma unparsed_table_skipped_witness :
  ∃ tv lg,
    get_table_results decimal_parse_numeric aggregating_analyzer =
      (Ok (stats_report calculate_mean calculate_std tv),
       with_table_values (Some tv) aggregating_analyzer, lg) ∧
    NoParsedValue (2, 0) ∈ lg ∧
    Dict.get (2, 0) tv = None ∧
    length (pd.values (stats_report calculate_mean calculate_std tv)) = length tv ∧
    let a0 := with_tagged_tables ([((1, 0), first_table)] ++ []) aggregating_analyzer in
    (get_table_results decimal_parse_numeric a0).1.1 =
      Ok (stats_report calculate_mean calculate_std tv) ∧
    table_values (get_table_results decimal_parse_numeric a0).1.2 = Some tv.
Proof.
  apply (unparsed_table_skipped decimal_parse_numeric aggregating_analyzer
           [((1, 0), first_table)] [] (2, 0) text_table).
  - reflexivity.
  - compute_done.
  - compute_done.
  - repeat constructor; discriminate.
  - eexists. split; [reflexivity|]. vm_compute. reflexivity.
Defined.

Lemma statistics_are_rounded_population_moments_witness :
  ∃ report tv lg,
    get_table_results decimal_parse_numeric aggregating_analyzer =
      (Ok report, with_table_values (Some tv) aggregating_analyzer, lg) ∧
    pd.values report = map (stats_row calculate_mean calculate_std) tv.
Proof.
  apply (proj1 (proj2 (statistics_are_rounded_population_moments
                         decimal_parse_numeric)) aggregating_analyzer).
  repeat constructor; discriminate.
Defined.

Lemma first_match_wins_witness :
  ∃ a',
    check_field_value_in_table iou_matches "total" inside_field matching_analyzer =
      (Ok (), a', []) ∧
    tagged_tables a' =
      (if Dict.contains (1, 0) (tagged_tables matching_analyzer)
       then tagged_tables matching_analyzer
       else tagged_tables matching_analyzer ++ [((1, 0), first_table)]) ∧
    (∀ idx', idx' ≠ (1, 0) →
       Dict.get idx' (tagged_tables a') =
       Dict.get idx' (tagged_tables matching_analyzer)) ∧
    fields_outside_of_tables a' = fields_outside_of_tables matching_analyzer.
Proof.
  apply (first_match_wins iou_matches "total" inside_field
           (tag_at 1 (0, 0, 100, 90))
           [((2, 0), text_table)] [((1, 1), second_table)] (1, 0) first_table
           (table_tag 1 (0, 0, 100, 100) example_grid) matching_analyzer).
  - reflexivity.
  - reflexivity.
  - repeat constructor. eexists. split; [reflexivity|]. vm_compute. reflexivity.
  - reflexivity.
  - vm_compute. reflexivity.
Defined.

Lemma referenced_registration_idempotent_witness :
  check_field_value_in_table iou_matches "total" inside_field referencing_analyzer =
  (Ok (), referencing_analyzer, []).
Proof.
  apply (referenced_registration_idempotent iou_matches "total" inside_field
           (tag_at 1 (0, 0, 100, 90))
           [((2, 0), text_table)] [((1, 1), second_table)] (1, 0) first_table
           (table_tag 1 (0, 0, 100, 100) example_grid) referencing_analyzer).
  - reflexivity.
  - reflexivity.
  - repeat constructor. eexists. split; [reflexivity|]. vm_compute. reflexivity.
  - reflexivity.
  - vm_compute. reflexivity.
  - reflexivity.
Defined.

Lemma missing_table_category_raises_witness :
  (check_fields iou_matches assign_by_page tableless_document new_extractor =
     (Raise KeyError, with_document (Some tableless_document) new_extractor, []) ∧
   (run_analysis iou_matches decimal_parse_numeric assign_by_page
      tableless_document new_extractor).1.1 = Raise KeyError) ∧
  display_document_object iou_matches decimal_parse_numeric assign_by_page
    tableless_document =
  ([st_title "Document Analysis Results"; st_subheader "Table Analysis";
    st_error "The provided document object has no tables under the key"],
   None).
Proof.
  destruct (missing_table_category_raises iou_matches decimal_parse_numeric
              assign_by_page tableless_document) as (Hraise & _ & Hpage).
  split.
  - apply (Hraise new_extractor). reflexivity.
  - apply Hpage; reflexivity.
Defined.

Lemma reports_of_reused_analyzer_witness :
  tagged_tables used_analyzer = [] ∧
  fields_outside_of_tables used_analyzer = [] ∧
  document used_analyzer = Some blank_document ∧
  (run_analysis iou_matches decimal_parse_numeric assign_by_page
     tables_document used_analyzer).1.1 =
  (run_analysis iou_matches decimal_parse_numeric assign_by_page
     tables_document new_extractor).1.1.
Proof.
  split_and!; [reflexivity..|].
  apply (reports_of_reused_analyzer iou_matches decimal_parse_numeric
           assign_by_page tables_document used_analyzer); reflexivity.
Defined.

(** C2, as stated, fails: after a first run that left a field unmatched, a
    run on the blank document reports that field again, where a new
    analyzer reports nothing. *)
Lemma reuse_merges_unmatched_fields :
  ((check_fields iou_matches assign_by_page single_revenue_document ;;
    run_analysis iou_matches decimal_parse_numeric assign_by_page
      blank_document) new_extractor).1.1 ≠
  (run_analysis iou_matches decimal_parse_numeric assign_by_page
     blank_document new_extractor).1.1.
Proof. vm_compute. discriminate. Qed.

Lemma untagged_tables_excluded_witness :
  ∃ a' l,
    (check_fields iou_matches assign_by_page tables_document new_extractor).1.2 = a' ∧
    (check_fields iou_matches assign_by_page tables_document new_extractor).2 =
      [TableHasNoTags "doc-5"] ++ l ∧
    tables a' = Some (assign_by_page [first_table; second_table; text_table]) ∧
    (run_analysis iou_matches decimal_parse_numeric assign_by_page
       tables_document new_extractor).1.1 =
    (run_analysis iou_matches decimal_parse_numeric assign_by_page
       (without_untagged "tables__table" tables_document) new_extractor).1.1.
Proof.
  destruct (untagged_tables_excluded iou_matches decimal_parse_numeric
              assign_by_page tables_document new_extractor
              [first_table; untagged_table; second_table; text_table])
    as (a' & l & Hstate & Hlog & _ & Htables & _ & Hreports).
  - reflexivity.
  - constructor.
  - intros item Hin. vm_compute in Hin.
    repeat (apply elem_of_cons in Hin as [->|Hin]);
      [| | |by apply elem_of_nil in Hin]; vm_compute; repeat constructor.
  - exists a', l. split_and!; done.
Defined.

(** How the constructor call of [check_fields] fares on what
    [fields_outside_of_tables] can hold. *)
Lemma unmatched_report_cases (k k' : string) (e e' : Z * PyVal)
    (es l l' : list (Z * PyVal)) (rest : Dict.t string (list (Z * PyVal))) :
  unmatched_report [] =
    Ok {| pd.columns := ["page"; "field_value"]; pd.index := [];
          pd.index_name := Some "python_name"; pd.values := [] |} ∧
  unmatched_report [(k, [e])] =
    Ok {| pd.columns := ["page"; "field_value"]; pd.index := [pd.LStr k];
          pd.index_name := Some "python_name";
          pd.values := [[PInt e.1; e.2]] |} ∧
  unmatched_report [(k, e :: e' :: es)] = Raise ValueError ∧
  unmatched_report ((k, l) :: (k', l') :: rest) = Raise TypeError.
Proof. destruct e. done. Qed.

(** C1 on the code: for two unmatched fields of category "revenue" on pages
    1 and 3 with values 100 and 200, [fields_outside_of_tables] holds the
    list [(1, 100), (3, 200)] under "revenue", but [check_fields] returns no
    report: the constructor call raises [ValueError]. *)
Theorem unmatched_report_of_two_instances :
  fields_outside_of_tables
    (check_fields iou_matches assign_by_page revenue_document new_extractor).1.2 =
    [("revenue", [(1, PInt 100); (3, PInt 200)])] ∧
  (check_fields iou_matches assign_by_page revenue_document new_extractor).1.1 =
    Raise ValueError.
Proof. split; vm_compute; reflexivity. Qed.

(** * Further properties of the code *)

(** ** What [get_table_values] returns *)

Section values.
Variable parse_numeric : PyVal → float.

Lemma enumerate_from_length {A} (i : Z) (l : list A) :
  length (enumerate_from i l) = length l.
Proof. revert i. induction l as [|c l IH]; intros i; cbn; [done|]. by rewrite IH. Qed.

Lemma get_table_values_contract (grid : Grid) (ignored : option (list Z)) :
  get_table_values parse_numeric grid ignored =
  extractNumericValues parse_numeric grid
    (match ignored with None => [] | Some l => l end).
Proof. unfold get_table_values. by rewrite grid_values. Qed.

Lemma sublist_map {A B} (f : A → B) (l1 l2 : list A) :
  l1 `sublist_of` l2 → map f l1 `sublist_of` map f l2.
Proof. induction 1; cbn; by constructor. Qed.

Lemma sublist_filter_mono {A} (P : A → Prop) `{!∀ x, Decision (P x)}
    (l1 l2 : list A) :
  l1 `sublist_of` l2 → filter P l1 `sublist_of` filter P l2.
Proof.
  induction 1 as [|x l1 l2 _ IH|x l1 l2 _ IH]; [done| |].
  - rewrite !filter_cons. destruct (decide (P x)); [by constructor|done].
  - rewrite filter_cons. destruct (decide (P x)); [by constructor|done].
Qed.

(** X1: no value returned by [get_table_values] is not-a-number, and there
    are at most as many values as the grid has cells. *)
Theorem get_table_values_are_numbers (grid : Grid) (ignored : option (list Z)) :
  Forall (λ v, PrimFloat.is_nan v = false)
    (get_table_values parse_numeric grid ignored) ∧
  (length (get_table_values parse_numeric grid ignored) ≤ length (concat grid))%nat.
Proof.
  rewrite get_table_values_contract.
  set (ig := match ignored with None => [] | Some l => l end).
  unfold extractNumericValues. induction grid as [|row grid [IH1 IH2]]; [done|].
  cbn [map concat]. split.
  - apply Forall_app. split; [|done].
    apply list.Forall_forall. by intros v [Hv _]%list_elem_of_filter.
  - rewrite !length_app.
    pose proof (length_filter (λ v, PrimFloat.is_nan v = false)
      (map (λ cell, parse_numeric cell.2)
         (filter (λ cell : Z * PyVal, cell.1 ∉ ig) (enumerate row)))) as H1.
    rewrite length_map in H1.
    pose proof (length_filter (λ cell : Z * PyVal, cell.1 ∉ ig) (enumerate row)) as H2.
    unfold enumerate in H2 at 2. rewrite enumerate_from_length in H2. lia.
Qed.

(** X2: ignoring columns only removes values: what is returned with ignored
    columns is what is returned without, with some values left out and the
    others in their order. *)
Theorem ignored_columns_only_remove (grid : Grid) (ignored : list Z) :
  get_table_values parse_numeric grid (Some ignored) `sublist_of`
  get_table_values parse_numeric grid None.
Proof.
  rewrite !get_table_values_contract. unfold extractNumericValues.
  induction grid as [|row grid IH]; [done|].
  cbn [map concat]. apply sublist_app; [|done].
  apply sublist_filter_mono, sublist_map.
  assert (Hall : filter (λ cell : Z * PyVal, cell.1 ∉ []) (enumerate row) =
                 enumerate row).
  { induction (enumerate row) as [|c l IHl]; [done|].
    rewrite filter_cons, decide_True by apply not_elem_of_nil. by rewrite IHl. }
  rewrite Hall. apply sublist_filter.
Qed.

End values.

(** ** What a category adds to the unmatched fields *)

Section categories.
Variable matches : Tag → Tag → float → bool.

Lemma dict_set_twice {K V} `{EqDecision K} (d : Dict.t K V) (k : K) (v v' : V) :
  Dict.set k v' (Dict.set k v d) = Dict.set k v' d.
Proof.
  induction d as [|[k0 v0] d IH]; cbn.
  - by rewrite decide_True.
  - destruct (decide (k = k0)) as [->|Hne]; cbn.
    + by rewrite decide_True.
    + rewrite decide_False by done. by rewrite IH.
Qed.

Lemma dict_get_set_same {K V} `{EqDecision K} (d : Dict.t K V) (k : K) (v : V) :
  Dict.get k (Dict.set k v d) = Some v.
Proof.
  induction d as [|[k0 v0] d IH]; cbn.
  - by rewrite decide_True.
  - destruct (decide (k = k0)) as [->|Hne]; cbn.
    + by rewrite decide_True.
    + by rewrite decide_False.
Qed.

Lemma unmatched_category (py_name : string) (items : list (TableIndex * Field))
    (fields : list Field) :
  ∀ a : TableAnalyzer,
  tables a = Some items →
  Forall (λ field, ∃ ftag, head (tags field) = Some ftag ∧
                           none_matches matches ftag a items) fields →
  check_category matches py_name fields a =
  (Ok (),
   match fields with
   | [] => a
   | _ :: _ =>
       with_fields_outside_of_tables
         (Dict.set py_name
            (entries_of py_name (fields_outside_of_tables a) ++
             omap unmatched_entry fields)
            (fields_outside_of_tables a)) a
   end,
   omap (unmatched_warning py_name) fields).
Proof.
  induction fields as [|field fields IH]; intros a Htables Hall; [done|].
  apply Forall_cons_1 in Hall as [(ftag & Hf & Hnone) Hall].
  unfold check_category in *. rewrite for_each_cons, bind_run.
  assert (Etags : ∃ rest, tags field = ftag :: rest).
  { destruct (tags field) as [|tag rest]; cbn in Hf; [done|].
    injection Hf as ->. by exists rest. }
  destruct Etags as [rest Etags]. rewrite Etags.
  rewrite (check_field_unmatched matches py_name field ftag items a Htables Hf Hnone).
  set (a1 := with_fields_outside_of_tables _ a).
  rewrite (IH a1 Htables Hall).
  assert (He : unmatched_entry field = Some (page_number ftag, value field))
    by (unfold unmatched_entry; by rewrite Hf).
  assert (Hw : unmatched_warning py_name field =
               Some (FieldNotInAnyTable py_name (value field) (page_number ftag)))
    by (unfold unmatched_warning; by rewrite Hf).
  cbn [omap list_omap]. rewrite He, Hw. cbn [app]. f_equal. f_equal.
  destruct fields as [|field' fields].
  - subst a1. unfold entries_of.
    by destruct (Dict.get py_name (fields_outside_of_tables a)).
  - subst a1. cbn [fields_outside_of_tables with_fields_outside_of_tables].
    unfold entries_of at 1. rewrite dict_get_set_same, dict_set_twice.
    unfold entries_of.
    destruct (Dict.get py_name (fields_outside_of_tables a));
      cbn; by rewrite <- ?app_assoc.
Qed.

(** X3: the fields of a category that no table matches are recorded under
    the category's name after the entries that are there, in the order of
    the fields, each with its warning; other categories and the referenced
    tables are left as they are. *)
Theorem unmatched_fields_accumulate (py_name : string)
    (items : list (TableIndex * Field)) (fields : list Field)
    (a : TableAnalyzer) :
  tables a = Some items →
  fields ≠ [] →
  Forall (λ field, ∃ ftag, head (tags field) = Some ftag ∧
                           none_matches matches ftag a items) fields →
  ∃ a',
    check_category matches py_name fields a =
      (Ok (), a', omap (unmatched_warning py_name) fields) ∧
    Dict.get py_name (fields_outside_of_tables a') =
      Some (entries_of py_name (fields_outside_of_tables a) ++
            omap unmatched_entry fields) ∧
    length (omap unmatched_entry fields) = length fields ∧
    (∀ k, k ≠ py_name →
       Dict.get k (fields_outside_of_tables a') =
       Dict.get k (fields_outside_of_tables a)) ∧
    tagged_tables a' = tagged_tables a.
Proof.
  intros Htables Hne Hall.
  rewrite (unmatched_category py_name items fields a Htables Hall).
  assert (Hlen : length (omap unmatched_entry fields) = length fields).
  { clear Hne. induction Hall as [|f fs (ftag & Hf & _) _ IH]; [done|].
    assert (He : unmatched_entry f = Some (page_number ftag, value f))
      by (unfold unmatched_entry; by rewrite Hf).
    cbn [omap list_omap]. rewrite He. cbn. by rewrite IH. }
  destruct fields as [|field fields]; [done|].
  eexists. split; [reflexivity|]. split_and!.
  - apply dict_get_set_same.
  - exact Hlen.
  - intros k Hk. cbn. by rewrite dict_get_set_ne.
  - done.
Qed.

Lemma first_match_split (ftag : Tag) (a : TableAnalyzer)
    (items : list (TableIndex * Field)) :
  Forall (λ item : TableIndex * Field, tags item.2 ≠ []) items →
  some_matches matches ftag (threshold a) items →
  ∃ pre idx table ttag post,
    items = pre ++ (idx, table) :: post ∧
    none_matches matches ftag a pre ∧
    head (tags table) = Some ttag ∧
    matches ftag ttag (threshold a) = true.
Proof.
  intros Htags Hsome. induction Htags as [|[idx table] items Ht Htags IH].
  - by apply Exists_nil in Hsome.
  - cbn in Ht. destruct (tags table) as [|ttag rest] eqn:Etags; [done|].
    destruct (matches ftag ttag (threshold a)) eqn:Hm.
    + exists [], idx, table, ttag, items. split_and!; [done|constructor| |done].
      by rewrite Etags.
    + apply list.Exists_inv in Hsome as [(ttag' & Ht' & Hm')|Hsome].
      { cbn in Ht'. rewrite Etags in Ht'. cbn in Ht'. congruence. }
      destruct (IH Hsome) as (pre & idx' & table' & ttag' & post & -> & Hpre & Ht' & Hm').
      exists ((idx, table) :: pre), idx', table', ttag', post.
      split_and!; [done| |done|done].
      apply Forall_cons_2; [|done]. exists ttag. cbn. by rewrite Etags.
Qed.

Lemma check_field_matched (py_name : string) (field : Field) (ftag : Tag)
    (items : list (TableIndex * Field)) (a : TableAnalyzer) :
  tables a = Some items →
  Forall (λ item : TableIndex * Field, tags item.2 ≠ []) items →
  head (tags field) = Some ftag →
  some_matches matches ftag (threshold a) items →
  ∃ added,
    check_field_value_in_table matches py_name field a =
      (Ok (), with_tagged_tables (tagged_tables a ++ added) a, []) ∧
    added ⊆ items ∧ (length added ≤ 1)%nat.
Proof.
  intros Htables Htags Hf Hsome.
  destruct (first_match_split ftag a items Htags Hsome)
    as (pre & idx & table & ttag & post & -> & Hpre & Ht & Hm).
  unfold check_field_value_in_table, attr_tables_items.
  rewrite bind_run. run. rewrite Htables. run.
  rewrite (scan_tables_first_match matches field ftag pre post idx table ttag a
             Hf Hpre Ht Hm).
  run. destruct (Dict.contains idx (tagged_tables a)) eqn:Hin.
  - exists []. rewrite app_nil_r.
    split_and!; [|intros item Hitem; by apply elem_of_nil in Hitem|cbn; lia].
    by destruct a.
  - exists [(idx, table)].
    split_and!; [|intros item ->%list_elem_of_singleton;
      apply elem_of_app; right; left|cbn; lia].
    rewrite dict_set_fresh; [done|].
    intros Hk. apply dict_contains_true in Hk. congruence.
Qed.

(** X4: when every tagged field of a category is matched by some table of
    the index mapping (and the indexed tables are tagged), the category adds
    nothing to the unmatched fields and emits no warning; the referenced
    tables keep their entries, new ones come after them and are indexed
    tables, at most one per field. *)
Theorem matched_fields_leave_no_entry (py_name : string)
    (items : list (TableIndex * Field)) (fields : list Field) :
  ∀ a : TableAnalyzer,
  tables a = Some items →
  Forall (λ item : TableIndex * Field, tags item.2 ≠ []) items →
  Forall (λ field, ∀ ftag, head (tags field) = Some ftag →
                           some_matches matches ftag (threshold a) items) fields →
  ∃ added,
    check_category matches py_name fields a =
      (Ok (), with_tagged_tables (tagged_tables a ++ added) a, []) ∧
    added ⊆ items ∧ (length added ≤ length fields)%nat.
Proof.
  induction fields as [|field fields IH]; intros a Htables Htags Hall.
  - exists []. rewrite app_nil_r.
    split_and!; [|intros item Hitem; by apply elem_of_nil in Hitem|done].
    by destruct a.
  - apply Forall_cons_1 in Hall as [Hfield Hall].
    unfold check_category in *. rewrite for_each_cons, bind_run.
    destruct (tags field) as [|ftag rest] eqn:Etags.
    + change ((mret () : M ()) a) with (Ok (), a, @nil Diagnostic). cbv beta iota.
      destruct (IH a Htables Htags Hall) as (added & -> & Hsub & Hlen).
      exists added. split_and!; [done|done|cbn; lia].
    + destruct (check_field_matched py_name field ftag items a Htables Htags)
        as (added1 & -> & Hsub1 & Hlen1);
        [rewrite ?Etags; done|apply Hfield; rewrite ?Etags; done|].
      set (a1 := with_tagged_tables (tagged_tables a ++ added1) a).
      destruct (IH a1 Htables Htags Hall) as (added & -> & Hsub & Hlen).
      exists (added1 ++ added). split_and!.
      * subst a1. cbn. by rewrite app_assoc.
      * intros item [?|?]%elem_of_app; [by apply Hsub1|by apply Hsub].
      * rewrite length_app. cbn. lia.
Qed.

End categories.

(** ** What a run of [check_fields] does to the analyzer *)

Section runs.
Variable matches : Tag → Tag → float → bool.
Variable assign_indices_to_tables : list Field → Dict.t TableIndex Field.

(** X5: the untagged fields of a category other than the table category are
    passed over silently: without them [check_fields] returns the same
    result, emits the same diagnostics and leaves the same analyzer, up to
    the document it holds. *)
Theorem untagged_fields_skipped_silently (name : string) (d : Document)
    (a : TableAnalyzer) :
  name ≠ table_name a →
  check_fields matches assign_indices_to_tables (without_untagged name d) a =
  let '(r, a', l) := check_fields matches assign_indices_to_tables d a in
  (r, with_document (Some (without_untagged name d)) a', l).
Proof.
  intros Hname. rewrite !check_fields_run, get_without_untagged.
  destruct (Dict.get (table_name a) (x d)) as [category|]; [|done].
  cbn [fmap option_fmap option_map]. rewrite decide_False by done. cbv zeta.
  rewrite check_categories_without_untagged.
  set (T := Some (assign_indices_to_tables (filter (λ o, tagged o) category))).
  change (with_tables T (with_document ?v a))
    with (with_document v (with_tables T a)).
  rewrite !(framed_check_categories matches (with_document _) d
              (frame_with_document _)).
  change (untagged_warnings (without_untagged name d) category)
    with (untagged_warnings d category).
  by destruct (check_categories matches d (with_tables T a))
    as [[[[]|e] b] l].
Qed.

Lemma unmatched_report_raises (fields_dict : Dict.t string (list (Z * PyVal)))
    (e : exn) :
  unmatched_report fields_dict = Raise e → e = ValueError ∨ e = TypeError.
Proof.
  unfold unmatched_report, pd.DataFrame_init.
  destruct fields_dict as [|[k l] [|[k' l'] rest]]; cbn; [done| |].
  - destruct l as [|p l]; [done|]. cbn.
    destruct (bool_decide (S (length l) = 1%nat)); cbn; [done|].
    intros [= <-]. by left.
  - intros [= <-]. by right.
Qed.

Lemma for_each_returns {X} (I : TableAnalyzer → Prop) (xs : list X)
    (body : X → M unit) :
  (∀ x a, x ∈ xs → I a → ∃ a' l, body x a = (Ok (), a', l) ∧ I a') →
  ∀ a, I a → ∃ a' l, for_each xs body a = (Ok (), a', l) ∧ I a'.
Proof.
  induction xs as [|x xs IH]; intros Hbody a Ha.
  - by exists a, [].
  - destruct (Hbody x a) as (a1 & l1 & Hrun & Ha1); [left|done|].
    destruct (IH (λ y b Hy, Hbody y b (list_elem_of_further _ _ _ Hy)) a1 Ha1)
      as (a2 & l2 & Hrun2 & Ha2).
    exists a2, (l1 ++ l2). rewrite for_each_cons, bind_run, Hrun, Hrun2. done.
Qed.

Lemma scan_tables_returns (field : Field) (ftag : Tag)
    (items : list (TableIndex * Field)) (a : TableAnalyzer) :
  head (tags field) = Some ftag →
  Forall (λ item : TableIndex * Field, tags item.2 ≠ []) items →
  ∃ b a', scan_tables matches field items a = (Ok b, a', []) ∧
          tables a' = tables a.
Proof.
  intros Hf Htags. induction Htags as [|[idx table] items Ht _ IH].
  - by exists false, a.
  - cbn in Ht. destruct (tags table) as [|ttag rest] eqn:Etags; [done|].
    cbn [scan_tables]. unfold tags0. rewrite Hf, Etags.
    revert IH. generalize (scan_tables matches field items). intros loop IH.
    run. destruct (matches ftag ttag (threshold a)).
    + destruct (Dict.contains idx (tagged_tables a)); by eexists _, _.
    + destruct IH as (b & a' & -> & Ha'). by exists b, a'.
Qed.

Lemma check_field_returns (py_name : string) (field : Field)
    (items : list (TableIndex * Field)) (a : TableAnalyzer) :
  tags field ≠ [] →
  tables a = Some items →
  Forall (λ item : TableIndex * Field, tags item.2 ≠ []) items →
  ∃ a' l, check_field_value_in_table matches py_name field a = (Ok (), a', l) ∧
          tables a' = Some items.
Proof.
  intros Hfield Htables Htags.
  destruct (tags field) as [|ftag rest] eqn:Etags; [done|].
  destruct (scan_tables_returns field ftag items a) as (b & a1 & Hscan & Ha1);
    [by rewrite Etags|done|].
  unfold check_field_value_in_table, attr_tables_items.
  rewrite bind_run. run. rewrite Htables. run. rewrite Hscan.
  rewrite Htables in Ha1. unfold tags0. rewrite Etags.
  destruct b; run; [by eexists _, _|].
  destruct (Dict.get py_name (fields_outside_of_tables a1)); run;
    by eexists _, _.
Qed.

Lemma check_categories_returns (d : Document)
    (items : list (TableIndex * Field)) (a : TableAnalyzer) :
  tables a = Some items →
  Forall (λ item : TableIndex * Field, tags item.2 ≠ []) items →
  ∃ a' l, check_categories matches d a = (Ok (), a', l) ∧
          tables a' = Some items.
Proof.
  intros Htables Htags. unfold check_categories.
  apply (for_each_returns (λ b, tables b = Some items)); [|done].
  intros py_name b Hin Hb. rewrite bind_run.
  destruct (Dict.get py_name (x d)) as [fields|] eqn:Hget.
  - run.
    destruct (for_each_returns (λ b, tables b = Some items) fields
      (λ field, match tags field with
                | [] => mret ()
                | _ :: _ => check_field_value_in_table matches py_name field
                end)) with (a := b) as (b' & l & Hrun & Hb'); [|done|].
    + intros field c _ Hc. destruct (tags field) as [|ftag rest] eqn:Etags.
      * by exists c, [].
      * apply (check_field_returns py_name field items c); [|done|done].
        by rewrite Etags.
    + unfold check_category. rewrite Hrun. by exists b', l.
  - apply dict_get_None in Hget. done.
Qed.

(** X6: when the document has the table category and the index mapping
    holds tagged tables only, [check_fields] goes through all fields and
    what it then raises, if anything, comes from building the report:
    [ValueError] or [TypeError], never [KeyError], [IndexError] or
    [AttributeError]. *)
Theorem check_fields_raises_only_from_report (d : Document) (a : TableAnalyzer)
    (category : list Field) :
  Dict.get (table_name a) (x d) = Some category →
  Forall (λ item : TableIndex * Field, tags item.2 ≠ [])
    (assign_indices_to_tables (filter (λ o, tagged o) category)) →
  ∃ a' l,
    check_fields matches assign_indices_to_tables d a =
      (unmatched_report (fields_outside_of_tables a'), a', l) ∧
    ∀ e, (check_fields matches assign_indices_to_tables d a).1.1 = Raise e →
         e = ValueError ∨ e = TypeError.
Proof.
  intros Hget Htags. rewrite check_fields_run, Hget. cbv zeta.
  destruct (check_categories_returns d _
              (with_tables (Some (assign_indices_to_tables
                 (filter (λ o, tagged o) category)))
                 (with_document (Some d) a)) eq_refl Htags)
    as (a' & l & -> & _).
  eexists _, _. split; [reflexivity|]. cbn. apply unmatched_report_raises.
Qed.

(** X7: [check_fields] returns a report only when at most one category has
    unmatched fields recorded and at most one unmatched field is recorded;
    the report then has the columns page and field_value and the recorded
    categories as row labels. *)
Theorem check_fields_report_shape (d : Document) (a : TableAnalyzer)
    (report : pd.DataFrame) :
  (check_fields matches assign_indices_to_tables d a).1.1 = Ok report →
  let recorded :=
    fields_outside_of_tables
      (check_fields matches assign_indices_to_tables d a).1.2 in
  (length recorded ≤ 1)%nat ∧
  (length (concat (Dict.values recorded)) ≤ 1)%nat ∧
  pd.columns report = ["page"; "field_value"] ∧
  pd.index report = map pd.LStr (Dict.keys recorded) ∧
  pd.index_name report = Some "python_name".
Proof.
  rewrite check_fields_run.
  destruct (Dict.get (table_name a) (x d)) as [category|]; [|done]. cbv zeta.
  destruct (check_categories matches d _) as [[[[]|e] a2] l2]; [|done].
  cbn. unfold unmatched_report, pd.DataFrame_init.
  destruct (fields_outside_of_tables a2) as [|[k l] [|[k' l'] rest]]; cbn.
  - intros [= <-]. split_and!; cbn; done || lia.
  - destruct l as [|p [|p' l]]; cbn.
    + intros [= <-]. split_and!; cbn; done || lia.
    + destruct p. intros [= <-]. split_and!; cbn; done || lia.
    + done.
  - done.
Qed.

(** X8: [check_fields] assigns [document] and leaves the configuration
    ([table_name], [threshold]) and [table_values] as they are, whether it
    returns or raises. *)
Theorem check_fields_keeps_configuration (d : Document) (a : TableAnalyzer) :
  let a' := (check_fields matches assign_indices_to_tables d a).1.2 in
  document a' = Some d ∧ table_name a' = table_name a ∧
  threshold a' = threshold a ∧ table_values a' = table_values a.
Proof.
  rewrite check_fields_run.
  destruct (Dict.get (table_name a) (x d)) as [category|]; [|done]. cbv zeta.
  set (a1 := with_tables _ (with_document (Some d) a)).
  pose proof (check_categories_keeps matches
    (λ b, document b = Some d ∧ table_name b = table_name a ∧
          threshold b = threshold a ∧ table_values b = table_values a)
    (conj (λ _ _ H, H) (λ _ _ _ H _, H)) d a1) as Hkeep.
  destruct (check_categories matches d a1) as [[[[]|e] a2] l2];
    by apply Hkeep.
Qed.

End runs.

(** ** How the referenced tables grow *)

Section growth.
Variable matches : Tag → Tag → float → bool.
Variable assign_indices_to_tables : list Field → Dict.t TableIndex Field.

Lemma grows_within_refl (index : list (TableIndex * Field)) (a : TableAnalyzer) :
  grows_within index a a.
Proof.
  exists []. rewrite app_nil_r. split; [done|].
  intros item Hitem. by apply elem_of_nil in Hitem.
Qed.

Lemma grows_within_trans (index : list (TableIndex * Field))
    (a b c : TableAnalyzer) :
  grows_within index a b → grows_within index b c → grows_within index a c.
Proof.
  intros (l1 & H1 & Hs1) (l2 & H2 & Hs2). exists (l1 ++ l2).
  rewrite H2, H1, app_assoc. split; [done|].
  intros item [?|?]%elem_of_app; [by apply Hs1|by apply Hs2].
Qed.

Lemma for_each_grows {X} (index : list (TableIndex * Field)) (xs : list X)
    (body : X → M unit) :
  (∀ x a, tables a = Some index →
          tables (body x a).1.2 = Some index ∧
          grows_within index a (body x a).1.2) →
  ∀ a, tables a = Some index →
       tables (for_each xs body a).1.2 = Some index ∧
       grows_within index a (for_each xs body a).1.2.
Proof.
  intros Hbody. induction xs as [|x xs IH]; intros a Ha.
  - split; [done|apply grows_within_refl].
  - rewrite for_each_cons, bind_run. destruct (Hbody x a Ha) as [Ha1 Hg1].
    destruct (body x a) as [[[[]|e] a1] l1]; [|done]. cbn in Ha1, Hg1.
    destruct (IH a1 Ha1) as [Ha2 Hg2].
    destruct (for_each xs body a1) as [[r a2] l2]. cbn in *.
    split; [done|]. by apply (grows_within_trans index a a1 a2).
Qed.

Lemma scan_tables_grows (index : list (TableIndex * Field)) (field : Field)
    (items : list (TableIndex * Field)) (a : TableAnalyzer) :
  items ⊆ index →
  grows_within index a (scan_tables matches field items a).1.2.
Proof.
  intros Hsub. induction items as [|[idx table] items IH].
  - apply grows_within_refl.
  - cbn [scan_tables]. unfold tags0.
    destruct (head (tags field)) as [ftag|]; [|apply grows_within_refl].
    destruct (head (tags table)) as [ttag|]; [|apply grows_within_refl].
    assert (IH' : grows_within index a (scan_tables matches field items a).1.2).
    { apply IH. intros item Hitem. apply Hsub. by right. }
    clear IH. revert IH'. generalize (scan_tables matches field items).
    intros rest IH. run. destruct (matches ftag ttag (threshold a)).
    + destruct (Dict.contains idx (tagged_tables a)) eqn:Hin;
        [apply grows_within_refl|].
      exists [(idx, table)]. cbn. split.
      * apply dict_set_fresh. intros Hk. apply dict_contains_true in Hk.
        congruence.
      * intros item ->%list_elem_of_singleton. apply Hsub. left.
    + by destruct (rest a) as [[r a'] l].
Qed.

Lemma check_field_grows (index : list (TableIndex * Field)) (py_name : string)
    (field : Field) (a : TableAnalyzer) :
  tables a = Some index →
  tables (check_field_value_in_table matches py_name field a).1.2 = Some index ∧
  grows_within index a (check_field_value_in_table matches py_name field a).1.2.
Proof.
  intros Ha. split.
  { by apply (check_field_keeps matches (λ b, tables b = Some index)
                (stable_tables _)). }
  unfold check_field_value_in_table, attr_tables_items.
  rewrite !bind_run. run. rewrite Ha. run.
  pose proof (scan_tables_grows index field index a (λ _ H, H)) as Hscan.
  destruct (scan_tables matches field index a) as [[[[]|e] a1] l1];
    [done| |done].
  cbn in Hscan. unfold tags0.
  destruct (head (tags field)) as [ftag|].
  - destruct (Dict.get py_name (fields_outside_of_tables a1)); by run.
  - by destruct (Dict.get py_name (fields_outside_of_tables a1)).
Qed.

Lemma check_categories_grows (index : list (TableIndex * Field)) (d : Document)
    (a : TableAnalyzer) :
  tables a = Some index →
  tables (check_categories matches d a).1.2 = Some index ∧
  grows_within index a (check_categories matches d a).1.2.
Proof.
  apply for_each_grows. clear a. intros py_name a Ha. rewrite bind_run.
  destruct (Dict.get py_name (x d)) as [fields|];
    [|split; [done|apply grows_within_refl]].
  run.
  pose proof (for_each_grows index fields
    (λ field, match tags field with
              | [] => mret ()
              | _ :: _ => check_field_value_in_table matches py_name field
              end)) as Hloop.
  fold (check_category matches py_name fields) in Hloop.
  destruct (Hloop) with (a := a) as [H1 H2]; [|done|].
  { intros field b Hb. cbv beta. destruct (tags field).
    - split; [done|apply grows_within_refl].
    - by apply check_field_grows. }
  by destruct (check_category matches py_name fields a) as [[r a'] l].
Qed.

Lemma dict_set_keys_NoDup {K V} `{EqDecision K} (d : Dict.t K V) (k : K) (v : V) :
  NoDup (Dict.keys d) → NoDup (Dict.keys (Dict.set k v d)).
Proof.
  unfold Dict.keys. induction d as [|[k0 v0] d IH]; cbn; intros Hd.
  - apply NoDup_singleton.
  - destruct (decide (k = k0)) as [->|Hne]; cbn; [done|].
    apply list.NoDup_cons in Hd as [Hk0 Hd].
    apply list.NoDup_cons. split; [|by apply IH].
    intros Hin. apply Hk0. clear IH Hd Hk0.
    induction d as [|[k1 v1] d IH]; cbn in *.
    + apply list_elem_of_singleton in Hin. congruence.
    + destruct (decide (k = k1)) as [->|Hne1]; cbn in *; [done|].
      apply elem_of_cons in Hin as [->|Hin]; [left|right; by apply IH].
Qed.

(** X9: the referenced tables only grow, and only by tables of the index
    mapping: after [check_fields] they are the ones there before, in their
    order and with their tables, followed by entries of the index mapping
    built from the document; their keys stay distinct. *)
Theorem referenced_tables_grow_within_index (d : Document) (a : TableAnalyzer)
    (category : list Field) :
  Dict.get (table_name a) (x d) = Some category →
  let a' := (check_fields matches assign_indices_to_tables d a).1.2 in
  grows_within (assign_indices_to_tables (filter (λ o, tagged o) category)) a a' ∧
  (NoDup (Dict.keys (tagged_tables a)) → NoDup (Dict.keys (tagged_tables a'))).
Proof.
  intros Hget. rewrite check_fields_run, Hget. cbv zeta.
  set (index := assign_indices_to_tables (filter (λ o, tagged o) category)).
  set (a1 := with_tables (Some index) (with_document (Some d) a)).
  destruct (check_categories_grows index d a1 eq_refl) as [_ Hgrow].
  pose proof (check_categories_keeps matches
    (λ b, NoDup (Dict.keys (tagged_tables a)) →
          NoDup (Dict.keys (tagged_tables b)))
    (conj (λ _ _ H, H)
          (λ idx table b H _ Hd, dict_set_keys_NoDup _ idx table (H Hd)))
    d a1 (λ H, H)) as Hkeep.
  by destruct (check_categories matches d a1) as [[[[]|e] a2] l2].
Qed.

End growth.

(** ** The table statistics of the referenced tables *)

Section reports.
Variable parse_numeric : PyVal → float.

Lemma collected_in_order (items : list (TableIndex * Field)) :
  ∀ tv : Dict.t TableIndex (list float),
  NoDup (Dict.keys items) →
  (∀ k, k ∈ Dict.keys items → k ∉ Dict.keys tv) →
  collected parse_numeric items tv = tv ++ omap (table_entry parse_numeric) items.
Proof.
  unfold Dict.keys.
  induction items as [|[idx table] items IH]; intros tv Hnodup Hfresh.
  - cbn. by rewrite app_nil_r.
  - cbn in Hnodup. apply list.NoDup_cons in Hnodup as [Hidx Hnodup].
    assert (Hstep : collected parse_numeric [(idx, table)] tv =
      match table_entry parse_numeric (idx, table) with
      | Some e => Dict.set e.1 e.2 tv
      | None => tv
      end).
    { unfold collected, table_entry. cbn.
      destruct (head (tags table)) as [tag|]; [|done].
      by destruct (get_table_values parse_numeric (df tag) None). }
    assert (Hkey : ∀ e, table_entry parse_numeric (idx, table) = Some e →
                        e.1 = idx).
    { unfold table_entry. cbn. intros e.
      destruct (head (tags table)) as [tag|]; [|done].
      destruct (get_table_values parse_numeric (df tag) None); [done|].
      by intros [= <-]. }
    change ((idx, table) :: items) with ([(idx, table)] ++ items).
    rewrite collected_app, Hstep. cbn [app omap list_omap].
    destruct (table_entry parse_numeric (idx, table)) as [[k vs]|].
    + specialize (Hkey _ eq_refl). cbn in Hkey. subst k. cbn [fst snd].
      rewrite dict_set_fresh by (apply Hfresh; cbn; left).
      rewrite IH; [by rewrite <- app_assoc|done|].
      intros k Hk. rewrite fmap_app. intros [Hin|Hin]%elem_of_app.
      * apply (Hfresh k); [cbn; by right|done].
      * cbn in Hin. apply list_elem_of_singleton in Hin. by subst.
    + apply IH; [done|]. intros k Hk. apply Hfresh. cbn. by right.
Qed.

Lemma table_entry_keys (items : list (TableIndex * Field)) :
  Dict.keys (omap (table_entry parse_numeric) items) `sublist_of` Dict.keys items.
Proof.
  unfold Dict.keys. induction items as [|[idx table] items IH]; [done|].
  cbn [omap list_omap]. unfold table_entry at 1. cbn [fst snd].
  destruct (head (tags table)) as [tag|]; [|by apply sublist_cons].
  destruct (get_table_values parse_numeric (df tag) None);
    [by apply sublist_cons|]. cbn. by apply sublist_skip.
Qed.

(** X10: with distinct keys in [tagged_tables], the report has one row per
    referenced table that has a parsed value, in the order of
    [tagged_tables], and [table_values] holds their values in that order. *)
Theorem statistics_rows_in_order (a : TableAnalyzer) :
  referenced_tagged a →
  NoDup (Dict.keys (tagged_tables a)) →
  let entries := omap (table_entry parse_numeric) (tagged_tables a) in
  ∃ report lg,
    get_table_results parse_numeric a =
      (Ok report, with_table_values (Some entries) a, lg) ∧
    pd.values report = map (stats_row calculate_mean calculate_std) entries ∧
    pd.index report = pd.range_index (length entries) ∧
    Dict.keys entries `sublist_of` Dict.keys (tagged_tables a).
Proof.
  intros Htags Hnodup entries. rewrite (get_table_results_run _ a Htags).
  rewrite (collected_in_order _ [] Hnodup)
    by (intros k _; apply not_elem_of_nil).
  cbn [app]. fold entries. eexists _, _. split; [reflexivity|].
  split_and!; [by destruct entries|by destruct entries|apply table_entry_keys].
Qed.

(** X11: [get_table_results] changes [table_values] only and can be called
    again: the second call returns the same report, emits the same
    diagnostics and leaves the analyzer as the first call left it. *)
Theorem get_table_results_again (a : TableAnalyzer) :
  referenced_tagged a →
  ∃ report tv lg,
    get_table_results parse_numeric a =
      (Ok report, with_table_values (Some tv) a, lg) ∧
    get_table_results parse_numeric (with_table_values (Some tv) a) =
      (Ok report, with_table_values (Some tv) a, lg).
Proof.
  intros Htags. rewrite (get_table_results_run _ a Htags).
  eexists _, _, _. split; [reflexivity|].
  by rewrite (get_table_results_run _ (with_table_values _ a) Htags).
Qed.

End reports.

(** ** The page *)

Section page.
Variable matches : Tag → Tag → float → bool.
Variable parse_numeric : PyVal → float.
Variable assign_indices_to_tables : list Field → Dict.t TableIndex Field.


(** X14: [main] stops with [ValueError] at the first of the API host and the
    token that holds a NUL character, with the first four elements on the
    page and the environment as the assignments before it left it.
    Otherwise it sets the two environment variables to what was typed, and
    fetches no document unless the button was pressed and all four inputs
    are filled in: its outcome does not depend on the document store,
    nothing is raised, and a pressed button gets the warning about required
    fields. *)
Theorem main_requires_all_fields (form : Form) (env : Dict.t string string)
    (fetch_document fetch_document' : string → string → result Document) :
  let out :=
    main matches parse_numeric assign_indices_to_tables fetch_document form env in
  let header :=
    [shown (st_title "Document Fetcher");
     st_markdown "Enter the Recipe ID and Document ID below:";
     st_text_input "API Host" "https://gulfim-api.cognaize.com";
     st_text_input "X Auth Token" ""] in
  (has_nul (API_HOST form) = true →
   out = {| elements := header; environ := env; uncaught := Some ValueError |}) ∧
  (has_nul (API_HOST form) = false → has_nul (x_auth_token form) = true →
   out = {| elements := header;
            environ := Dict.set "API_HOST" (API_HOST form) env;
            uncaught := Some ValueError |}) ∧
  (has_nul (API_HOST form) = false → has_nul (x_auth_token form) = false →
   Dict.get "API_HOST" (environ out) = Some (API_HOST form) ∧
   Dict.get "X_AUTH_TOKEN" (environ out) = Some (x_auth_token form) ∧
   (button form = false ∨ document_id form = "" ∨ recipe_id form = "" ∨
    API_HOST form = "" ∨ x_auth_token form = "" →
    out = main matches parse_numeric assign_indices_to_tables fetch_document'
            form env ∧
    uncaught out = None ∧
    (button form = true →
     st_warning "Please fill in the required fields to retrieve the document."
       ∈ elements out))).
Proof.
  assert (Hhost : ∀ value e,
    os.environ_set "API_HOST" value e =
    if has_nul value then Raise ValueError
    else Ok (Dict.set "API_HOST" value e)).
  { intros value e. unfold os.environ_set.
    change (has_nul "API_HOST") with false.
    change (negb (truthy "API_HOST")) with false.
    change (holds equals_sign "API_HOST") with false.
    by rewrite !orb_false_r. }
  assert (Htoken : ∀ value e,
    os.environ_set "X_AUTH_TOKEN" value e =
    if has_nul value then Raise ValueError
    else Ok (Dict.set "X_AUTH_TOKEN" value e)).
  { intros value e. unfold os.environ_set.
    change (has_nul "X_AUTH_TOKEN") with false.
    change (negb (truthy "X_AUTH_TOKEN")) with false.
    change (holds equals_sign "X_AUTH_TOKEN") with false.
    by rewrite !orb_false_r. }
  cbv zeta. unfold main. rewrite !Hhost.
  destruct (has_nul (API_HOST form)) eqn:Hh; [by split_and!|].
  rewrite !Htoken.
  destruct (has_nul (x_auth_token form)) eqn:Ht; [by split_and!|].
  split_and!; [done|done|]. intros _ _.
  { assert (H1 : Dict.get "API_HOST"
                   (Dict.set "X_AUTH_TOKEN" (x_auth_token form)
                      (Dict.set "API_HOST" (API_HOST form) env)) =
                 Some (API_HOST form)).
    { rewrite dict_get_set_ne by done. apply dict_get_set_same. }
    assert (H2 : Dict.get "X_AUTH_TOKEN"
                   (Dict.set "X_AUTH_TOKEN" (x_auth_token form)
                      (Dict.set "API_HOST" (API_HOST form) env)) =
                 Some (x_auth_token form)) by apply dict_get_set_same.
    cbv zeta.
    destruct (button form) eqn:Hb.
    + destruct (truthy (document_id form) && truthy (recipe_id form)
                && truthy (API_HOST form) && truthy (x_auth_token form)) eqn:Hall.
      * assert (Hfilled : ¬ (true = false ∨ document_id form = "" ∨
                             recipe_id form = "" ∨ API_HOST form = "" ∨
                             x_auth_token form = "")).
        { intros [?|[H|[H|[H|H]]]]; [done|..];
            rewrite H in Hall; cbn in Hall; rewrite ?andb_false_r in Hall; done. }
        destruct (fetch_document _ _) as [doc_object|e].
        -- destruct (display_document_object _ _ _ doc_object)
             as [widgets [e|]]; cbn [environ];
             (split_and!; [exact H1|exact H2|]);
             intros Hempty; by destruct (Hfilled Hempty).
        -- cbn [environ]. split_and!; [exact H1|exact H2|].
           intros Hempty; by destruct (Hfilled Hempty).
      * cbn [environ]. split_and!; [exact H1|exact H2|].
        intros _. split_and!; [done|done|]. intros _. cbn.
        do 7 right. left.
    + cbn [environ]. split_and!; [exact H1|exact H2|].
      intros _. split_and!; done. }
Qed.

End page.

(** ** The statistics after a run of [check_fields] *)

Section raising_statistics.
Variable parse : PyVal → result float.

#[local] Arguments Raising.get_table_values : simpl never.

(** The loop of [collect_tables_values] when the parser returns on every
    cell read: it collects what the parser returns. *)
Lemma raising_collect_loop (f : PyVal → float)
    (items : list (TableIndex * Field)) :
  ∀ (a : TableAnalyzer) (tv : Dict.t TableIndex (list float)),
  Forall (λ item, tags item.2 ≠ []) items →
  parses_as parse f items →
  for_each items (λ '(idx, table),
      tag ← tags0 table;
      let table_df := df tag in
      values ← lift (Raising.get_table_values parse table_df None);
      match values with
      | [] => warning (NoParsedValue idx)
      | _ :: _ =>
          a ← get_self;
          tv ← expect TypeError (table_values a);
          update (with_table_values (Some (Dict.set idx values tv)))
      end) (with_table_values (Some tv) a) =
  (Ok (), with_table_values (Some (collected f items tv)) a,
   collect_log f items).
Proof.
  induction items as [|[idx table] items IH]; intros a tv Htags Hcells; [done|].
  apply Forall_cons_1 in Htags as [Htag Htags]. cbn in Htag.
  apply Forall_cons_1 in Hcells as [Hcell Hcells].
  unfold cells_of in Hcell. cbn [snd] in Hcell.
  destruct (tags table) as [|tag rest] eqn:Etags; [done|].
  change (Forall (λ cell, parse cell.2 = Ok (f cell.2))
            (cells_read (df tag) (default [] None))) in Hcell.
  apply (raising_get_table_values_returns parse f (df tag) None) in Hcell.
  rewrite for_each_cons. hide_loop items IH loop.
  unfold collected, collect_log. cbn [fold_left flat_map fst snd].
  fold (collect_log f items).
  unfold tags0. rewrite Etags. run. rewrite Hcell.
  destruct (get_table_values f (df tag) None) as [|v vs] eqn:Evals; run.
  - by rewrite IH.
  - change (with_table_values ?v (with_table_values _ a))
      with (with_table_values v a).
    by rewrite IH.
Qed.

(** The loop of [collect_tables_values] in general: it returns, or it is
    left by an exception of the parser on a cell read. *)
Lemma raising_collect_loop_outcome (items : list (TableIndex * Field)) :
  ∀ (a : TableAnalyzer) (tv : Dict.t TableIndex (list float)),
  Forall (λ item, tags item.2 ≠ []) items →
  let r :=
    for_each items (λ '(idx, table),
      tag ← tags0 table;
      let table_df := df tag in
      values ← lift (Raising.get_table_values parse table_df None);
      match values with
      | [] => warning (NoParsedValue idx)
      | _ :: _ =>
          a ← get_self;
          tv ← expect TypeError (table_values a);
          update (with_table_values (Some (Dict.set idx values tv)))
      end) (with_table_values (Some tv) a) in
  (∃ tv' lg, r = (Ok (), with_table_values (Some tv') a, lg)) ∨
  (∃ e a' lg, r = (Raise e, a', lg) ∧ raises_in parse e items).
Proof.
  induction items as [|[idx table] items IH]; intros a tv Htags.
  { left. by eexists _, _. }
  apply Forall_cons_1 in Htags as [Htag Htags]. cbn in Htag.
  destruct (tags table) as [|tag rest] eqn:Etags; [done|].
  intros r. subst r. rewrite for_each_cons. hide_loop items IH loop.
  unfold tags0. rewrite Etags. run.
  destruct (Raising.get_table_values parse (df tag) None) as [values|e]
    eqn:Evals.
  - assert (Hrest : ∀ tv1,
      (∃ tv' lg, loop (with_table_values (Some tv1) a) =
                   (Ok (), with_table_values (Some tv') a, lg)) ∨
      (∃ e a' lg, loop (with_table_values (Some tv1) a) = (Raise e, a', lg) ∧
                  raises_in parse e ((idx, table) :: items))).
    { intros tv1. destruct (IH a tv1 Htags) as [Hok|(e & a' & lg & Hr & He)];
        [by left|right].
      exists e, a', lg. split; [done|]. by apply Exists_cons_tl. }
    destruct values as [|v vs]; run.
    + destruct (Hrest tv) as [(tv' & lg & ->)|(e & a' & lg & -> & He)].
      * left. by eexists _, _.
      * right. by eexists _, _, _.
    + change (with_table_values ?v (with_table_values _ a))
        with (with_table_values v a).
      destruct (Hrest (Dict.set idx (v :: vs) tv))
        as [(tv' & lg & ->)|(e & a' & lg & -> & He)].
      * left. by eexists _, _.
      * right. by eexists _, _, _.
  - right. run. eexists _, _, _. split; [reflexivity|].
    apply Exists_cons_hd. unfold cells_of. cbn [snd]. rewrite Etags.
    change (Exists (λ cell, parse cell.2 = Raise e)
              (cells_read (df tag) (default [] None))).
    by apply (raising_get_table_values_raises parse e (df tag) None).
Qed.

(** [get_table_results] when the parser returns on every cell read in the
    referenced tables: what it does with the function the parser computes
    there. *)
Lemma raising_get_table_results_returns (f : PyVal → float) (a : TableAnalyzer) :
  Forall (λ item, tags item.2 ≠ []) (tagged_tables a) →
  parses_as parse f (tagged_tables a) →
  Raising.get_table_results parse a = get_table_results f a.
Proof.
  intros Htags Hcells. rewrite (get_table_results_run f a Htags).
  unfold Raising.get_table_results, Raising.collect_tables_values.
  rewrite bind_run. run.
  rewrite_loop (raising_collect_loop f _ a [] Htags Hcells).
  unfold attr_table_values_items. run.
  rewrite results_frame. by rewrite !app_nil_r.
Qed.

(** [get_table_results] in general, when every referenced table has a tag:
    only an exception of the parser on a cell read leaves it. *)
Lemma raising_get_table_results_raises (e : exn) (a : TableAnalyzer) :
  Forall (λ item, tags item.2 ≠ []) (tagged_tables a) →
  (Raising.get_table_results parse a).1.1 = Raise e →
  raises_in parse e (tagged_tables a).
Proof.
  intros Htags. unfold Raising.get_table_results, Raising.collect_tables_values.
  rewrite bind_run. run.
  pose proof (raising_collect_loop_outcome _ a [] Htags) as Hloop.
  cbv zeta in Hloop.
  match type of Hloop with
  | context [for_each ?xs ?b ?s] =>
      match goal with
      | |- context [for_each ?xs' ?b' ?s'] =>
          change (for_each xs' b' s') with (for_each xs b s)
      end
  end.
  destruct Hloop as [(tv' & lg & ->)|(e' & a' & lg & -> & He)].
  - unfold attr_table_values_items. run. by rewrite results_frame.
  - cbn. by intros [= <-].
Qed.

End raising_statistics.

Section pipeline.
Variable matches : Tag → Tag → float → bool.
Variable parse : PyVal → result float.
Variable assign_indices_to_tables : list Field → Dict.t TableIndex Field.

(** X12: after [check_fields], whether it returned or raised, only an
    exception that the parser raises on a cell of a referenced table leaves
    [get_table_results]: a table is referenced only once its first tag was
    read, so reading the first tag of a referenced table cannot fail.  When
    the parser returns on every such cell, [get_table_results] returns a
    report, the one of the function that the parser computes there. *)
Theorem get_table_results_after_check_fields (d : Document)
    (a : TableAnalyzer) :
  referenced_tagged a →
  let a' := (check_fields matches assign_indices_to_tables d a).1.2 in
  referenced_tagged a' ∧
  (∀ e, (Raising.get_table_results parse a').1.1 = Raise e →
        raises_in parse e (tagged_tables a')) ∧
  (∀ f, parses_as parse f (tagged_tables a') →
        Raising.get_table_results parse a' = get_table_results f a' ∧
        ∃ report tv lg,
          Raising.get_table_results parse a' =
            (Ok report, with_table_values (Some tv) a', lg)).
Proof.
  intros Ha a'.
  assert (Ha' : referenced_tagged a').
  { subst a'. rewrite check_fields_run.
    destruct (Dict.get (table_name a) (x d)) as [category|]; [|done]. cbv zeta.
    set (a1 := with_tables _ (with_document (Some d) a)).
    pose proof (check_categories_keeps matches referenced_tagged
                  stable_referenced_tagged d a1 Ha) as Hkeep.
    by destruct (check_categories matches d a1) as [[[[]|e] a2] l2]. }
  split_and!; [done|..].
  - intros e. by apply raising_get_table_results_raises.
  - intros f Hcells.
    rewrite (raising_get_table_results_returns parse f a' Ha' Hcells).
    split; [done|]. rewrite (get_table_results_run _ a' Ha'). by eexists _, _, _.
Qed.

End pipeline.

(** ** The further properties on the example documents *)

Lemma unmatched_fields_accumulate_witness :
  ∃ a',
    check_category iou_matches "revenue" page3_fields matching_analyzer =
      (Ok (), a', omap (unmatched_warning "revenue") page3_fields) ∧
    Dict.get "revenue" (fields_outside_of_tables a') =
      Some (entries_of "revenue" (fields_outside_of_tables matching_analyzer) ++
            omap unmatched_entry page3_fields) ∧
    length (omap unmatched_entry page3_fields) = length page3_fields ∧
    (∀ k, k ≠ "revenue" →
       Dict.get k (fields_outside_of_tables a') =
       Dict.get k (fields_outside_of_tables matching_analyzer)) ∧
    tagged_tables a' = tagged_tables matching_analyzer.
Proof.
  apply (unmatched_fields_accumulate iou_matches "revenue" scanned_index
           page3_fields matching_analyzer).
  - reflexivity.
  - discriminate.
  - repeat constructor; eexists; (split; [reflexivity|]);
      repeat constructor; eexists; (split; [reflexivity|]);
      vm_compute; reflexivity.
Defined.

Lemma matched_fields_leave_no_entry_witness :
  ∃ added,
    check_category iou_matches "total" total_fields matching_analyzer =
      (Ok (),
       with_tagged_tables (tagged_tables matching_analyzer ++ added)
         matching_analyzer, []) ∧
    added ⊆ scanned_index ∧ (length added ≤ length total_fields)%nat.
Proof.
  apply (matched_fields_leave_no_entry iou_matches "total" scanned_index
           total_fields matching_analyzer).
  - reflexivity.
  - repeat constructor; discriminate.
  - apply Forall_cons_2; [|apply Forall_cons_2; [|apply Forall_cons_2;
      [|apply Forall_nil_2]]]; intros ftag [= <-].
    + apply Exists_cons_tl, Exists_cons_hd. eexists. split; [reflexivity|].
      vm_compute. reflexivity.
    + apply Exists_cons_tl, Exists_cons_hd. eexists. split; [reflexivity|].
      vm_compute. reflexivity.
    + apply Exists_cons_hd. eexists. split; [reflexivity|].
      vm_compute. reflexivity.
Defined.

Lemma untagged_fields_skipped_silently_witness :
  check_fields iou_matches assign_by_page
    (without_untagged "notes" notes_document) new_extractor =
  let '(r, a', l) :=
    check_fields iou_matches assign_by_page notes_document new_extractor in
  (r, with_document (Some (without_untagged "notes" notes_document)) a', l).
Proof.
  apply (untagged_fields_skipped_silently iou_matches assign_by_page "notes"
           notes_document new_extractor).
  discriminate.
Defined.

Lemma check_fields_raises_only_from_report_witness :
  ∃ a' l,
    check_fields iou_matches assign_by_page tables_document new_extractor =
      (unmatched_report (fields_outside_of_tables a'), a', l) ∧
    ∀ e, (check_fields iou_matches assign_by_page tables_document
            new_extractor).1.1 = Raise e →
         e = ValueError ∨ e = TypeError.
Proof.
  apply (check_fields_raises_only_from_report iou_matches assign_by_page
           tables_document new_extractor
           [first_table; untagged_table; second_table; text_table]).
  - reflexivity.
  - vm_compute. repeat constructor; discriminate.
Defined.

Lemma check_fields_report_shape_witness :
  let recorded :=
    fields_outside_of_tables
      (check_fields iou_matches assign_by_page single_revenue_document
         new_extractor).1.2 in
  (length recorded ≤ 1)%nat ∧
  (length (concat (Dict.values recorded)) ≤ 1)%nat ∧
  pd.columns
    {| pd.columns := ["page"; "field_value"]; pd.index := [pd.LStr "revenue"];
       pd.index_name := Some "python_name";
       pd.values := [[PInt 1; PInt 100]] |} = ["page"; "field_value"] ∧
  pd.index
    {| pd.columns := ["page"; "field_value"]; pd.index := [pd.LStr "revenue"];
       pd.index_name := Some "python_name";
       pd.values := [[PInt 1; PInt 100]] |} =
    map pd.LStr (Dict.keys recorded) ∧
  pd.index_name
    {| pd.columns := ["page"; "field_value"]; pd.index := [pd.LStr "revenue"];
       pd.index_name := Some "python_name";
       pd.values := [[PInt 1; PInt 100]] |} = Some "python_name".
Proof.
  apply (check_fields_report_shape iou_matches assign_by_page
           single_revenue_document new_extractor).
  reflexivity.
Defined.

Lemma referenced_tables_grow_within_index_witness :
  let a' :=
    (check_fields iou_matches assign_by_page tables_document new_extractor).1.2 in
  grows_within
    (assign_by_page
       (filter (λ o, tagged o)
          [first_table; untagged_table; second_table; text_table]))
    new_extractor a' ∧
  (NoDup (Dict.keys (tagged_tables new_extractor)) →
   NoDup (Dict.keys (tagged_tables a'))).
Proof.
  apply (referenced_tables_grow_within_index iou_matches assign_by_page
           tables_document new_extractor
           [first_table; untagged_table; second_table; text_table]).
  reflexivity.
Defined.

Lemma statistics_rows_in_order_witness :
  let entries :=
    omap (table_entry decimal_parse_numeric)
      (tagged_tables aggregating_analyzer) in
  ∃ report lg,
    get_table_results decimal_parse_numeric aggregating_analyzer =
      (Ok report, with_table_values (Some entries) aggregating_analyzer, lg) ∧
    pd.values report = map (stats_row calculate_mean calculate_std) entries ∧
    pd.index report = pd.range_index (length entries) ∧
    Dict.keys entries `sublist_of` Dict.keys (tagged_tables aggregating_analyzer).
Proof.
  apply (statistics_rows_in_order decimal_parse_numeric aggregating_analyzer).
  - repeat constructor; discriminate.
  - compute_done.
Defined.

Lemma get_table_results_again_witness :
  ∃ report tv lg,
    get_table_results decimal_parse_numeric aggregating_analyzer =
      (Ok report, with_table_values (Some tv) aggregating_analyzer, lg) ∧
    get_table_results decimal_parse_numeric
      (with_table_values (Some tv) aggregating_analyzer) =
      (Ok report, with_table_values (Some tv) aggregating_analyzer, lg).
Proof.
  apply (get_table_results_again decimal_parse_numeric aggregating_analyzer).
  repeat constructor; discriminate.
Defined.


Lemma main_requires_all_fields_witness :
  let out :=
    main iou_matches decimal_parse_numeric assign_by_page
      (λ _ _, Ok tables_document) incomplete_form [] in
  Dict.get "API_HOST" (environ out) = Some (API_HOST incomplete_form) ∧
  Dict.get "X_AUTH_TOKEN" (environ out) = Some (x_auth_token incomplete_form) ∧
  (button incomplete_form = false ∨ document_id incomplete_form = "" ∨
   recipe_id incomplete_form = "" ∨ API_HOST incomplete_form = "" ∨
   x_auth_token incomplete_form = "" →
   out = main iou_matches decimal_parse_numeric assign_by_page
           (λ _ _, Raise KeyError) incomplete_form [] ∧
   uncaught out = None ∧
   (button incomplete_form = true →
    st_warning "Please fill in the required fields to retrieve the document."
      ∈ elements out)).
Proof.
  apply (proj2 (proj2 (main_requires_all_fields iou_matches
                         decimal_parse_numeric assign_by_page incomplete_form []
                         (λ _ _, Ok tables_document) (λ _ _, Raise KeyError))));
    reflexivity.
Defined.

(** On [tables_document], whose referenced tables hold integer cells, the
    parser raises and [TypeError] leaves [get_table_results]. *)
Lemma get_table_results_raises_on_integer_cells :
  (Raising.get_table_results numeric_parser
     (check_fields iou_matches assign_by_page tables_document
        new_extractor).1.2).1.1 = Raise TypeError.
Proof. vm_compute. reflexivity. Qed.

(** A NUL character in the token: [main] stops before the button is looked
    at, whatever the document store holds, and only the API host is set. *)
Lemma main_stops_at_nul_token :
  main iou_matches decimal_parse_numeric assign_by_page
    (λ _ _, Ok tables_document) nul_token_form [] =
  {| elements :=
       [shown (st_title "Document Fetcher");
        st_markdown "Enter the Recipe ID and Document ID below:";
        st_text_input "API Host" "https://gulfim-api.cognaize.com";
        st_text_input "X Auth Token" ""];
     environ := [("API_HOST", "https://gulfim-api.cognaize.com")];
     uncaught := Some ValueError |}.
Proof. reflexivity. Qed.

Lemma get_table_results_after_check_fields_witness :
  let a' :=
    (check_fields iou_matches assign_by_page string_tables_document
       new_extractor).1.2 in
  Raising.get_table_results numeric_parser a' =
    get_table_results decimal_parse_numeric a' ∧
  ∃ report tv lg,
    Raising.get_table_results numeric_parser a' =
      (Ok report, with_table_values (Some tv) a', lg).
Proof.
  apply (proj2 (proj2 (get_table_results_after_check_fields iou_matches
                         numeric_parser assign_by_page string_tables_document
                         new_extractor (Forall_nil_2 _)))
           decimal_parse_numeric).
  vm_compute. repeat constructor.
Defined.
